(** * PathFinder matching engine: skill scoring, gap analysis, ranking

    Shallow embedding of the scoring core of
    [backend/services/matching_service.py] and
    [backend/services/skill_graph_service.py].

    Python floats are modelled as exact rationals [Q]; Python strings as
    [string]; JSON dictionaries of requirements and profile skills as
    records whose absent keys are [None], read back with the defaults
    the source passes to [dict.get]. *)

From Stdlib Require Import QArith Qminmax Lqa ZArith Lia Bool List Sorted String Permutation.
Import ListNotations.

Local Open Scope Q_scope.
Local Open Scope string_scope.

(** ** Python helpers *)

(** [d.get(k, default)] on an optional entry. *)
Definition dict_get {A} (o : option A) (d : A) : A :=
  match o with Some v => v | None => d end.

(** Truthiness of an optional string: [None] and [""] are falsy. *)
Definition str_truthy (o : option string) : bool :=
  match o with
  | None => false
  | Some s => negb (String.eqb s "")
  end.

(** Truthiness of an optional flag: [None] and [False] are falsy. *)
Definition flag_truthy (o : option bool) : bool := dict_get o false.

(** The Python [max] and [min] on two floats. *)
Definition py_max (a b : Q) : Q := if Qle_bool b a then a else b.
Definition py_min (a b : Q) : Q := if Qle_bool a b then a else b.

(** ** The skill level scale *)

(** [class SkillLevel(str, Enum)] *)
Inductive SkillLevel := NOVICE | BEGINNER | INTERMEDIATE | ADVANCED | EXPERT.

(** [SkillLevel.X.value] *)
Definition level_value (l : SkillLevel) : string :=
  match l with
  | NOVICE => "novice"
  | BEGINNER => "beginner"
  | INTERMEDIATE => "intermediate"
  | ADVANCED => "advanced"
  | EXPERT => "expert"
  end.

(** Requirement dictionary [{min_level, weight, is_critical}]. *)
Record Requirement := mkRequirement {
  req_min_level : option string;
  req_weight : option Q;
  req_is_critical : option bool
}.

(** Severity strings, ranked [none < low < medium < high < critical]
    as in the sort of [analyze_skill_gaps]. *)
Definition severity_rank (s : string) : nat :=
  if String.eqb s "none" then 0
  else if String.eqb s "low" then 1
  else if String.eqb s "medium" then 2
  else if String.eqb s "high" then 3
  else 4.

(** ** SkillGraphService *)
Module SkillGraphService.

(** [level_order] of [_calculate_gap_severity]. *)
Definition level_order (l : SkillLevel) : Z :=
  match l with
  | NOVICE => 0 | BEGINNER => 1 | INTERMEDIATE => 2
  | ADVANCED => 3 | EXPERT => 4
  end.

(** [SkillGraphService._calculate_gap_severity] (enum keyed). *)
Definition calculate_gap_severity (current_level : option SkillLevel)
    (required_level : SkillLevel) (requirements : Requirement) : string :=
  match current_level with
  | None =>
      if flag_truthy (req_is_critical requirements) then "critical"
      else match required_level with
           | ADVANCED | EXPERT => "high"
           | _ => "medium"
           end
  | Some cur =>
      let gap := (level_order required_level - level_order cur)%Z in
      if (gap <=? 0)%Z then "none"
      else if (gap =? 1)%Z then "low"
      else if (gap =? 2)%Z then "medium"
      else if negb (flag_truthy (req_is_critical requirements)) then "high"
      else "critical"
  end.

End SkillGraphService.

(** ** MatchingService *)
Module MatchingService.

(** [level_scores] of [_calculate_skill_match_score]. *)
Definition level_scores (s : string) : option Z :=
  if String.eqb s "novice" then Some 1%Z
  else if String.eqb s "beginner" then Some 2%Z
  else if String.eqb s "intermediate" then Some 3%Z
  else if String.eqb s "advanced" then Some 4%Z
  else if String.eqb s "expert" then Some 5%Z
  else None.

(** [MatchingService._calculate_skill_match_score] *)
Definition calculate_skill_match_score (current_level : option string)
    (required_level : string) : Q :=
  if negb (str_truthy current_level) then 0
  else
    let current_score := dict_get (level_scores (dict_get current_level "")) 0%Z in
    let required_score := dict_get (level_scores required_level) 1%Z in
    if (required_score <=? current_score)%Z then 1
    else inject_Z current_score / inject_Z required_score.

(** [level_order] of [MatchingService._calculate_gap_severity]. *)
Definition level_order (s : string) : option Z :=
  if String.eqb s "novice" then Some 0%Z
  else if String.eqb s "beginner" then Some 1%Z
  else if String.eqb s "intermediate" then Some 2%Z
  else if String.eqb s "advanced" then Some 3%Z
  else if String.eqb s "expert" then Some 4%Z
  else None.

(** [MatchingService._calculate_gap_severity] (string keyed). *)
Definition calculate_gap_severity (current_level : option string)
    (required_level : string) (requirements : Requirement) : string :=
  if negb (str_truthy current_level) then
    if flag_truthy (req_is_critical requirements) then "critical"
    else if existsb (String.eqb required_level) ["advanced"; "expert"] then "high"
    else "medium"
  else
    let current_score := dict_get (level_order (dict_get current_level "")) 0%Z in
    let required_score := dict_get (level_order required_level) 0%Z in
    let gap := (required_score - current_score)%Z in
    if (gap <=? 0)%Z then "none"
    else if (gap =? 1)%Z then "low"
    else if (gap =? 2)%Z then "medium"
    else if negb (flag_truthy (req_is_critical requirements)) then "high"
    else "critical".

End MatchingService.

(** ** Scoring engine (MatchingService) *)
Module Scoring.
Import MatchingService.

(** [@dataclass SkillMatch] (fields used by the scoring). *)
Record SkillMatch := mkSkillMatch {
  sm_required_level : string;
  sm_current_level : option string;
  sm_match_score : Q;
  sm_is_critical : bool;
  sm_weight : Q;
  sm_gap_severity : string
}.

(** Entry of [employee.skills]: [{level, experience_years}]. *)
Record ProfileSkill := mkProfileSkill {
  ps_level : option string;
  ps_experience_years : option Q
}.

(** A dictionary entry is truthy when it is present and non-empty. *)
Definition entry_truthy (o : option ProfileSkill) : bool :=
  match o with
  | None => false
  | Some e =>
      match ps_level e, ps_experience_years e with
      | None, None => false
      | _, _ => true
      end
  end.

(** Body of the loop of [_analyze_skills_match] for one required skill,
    [current_skill = employee_skills.get(skill_id_str)]. *)
Definition analyze_skill_entry (current_skill : option ProfileSkill)
    (requirements : Requirement) : SkillMatch :=
  let required_level := dict_get (req_min_level requirements) "novice" in
  let is_critical := flag_truthy (req_is_critical requirements) in
  let weight := dict_get (req_weight requirements) 1 in
  let current_level :=
    if entry_truthy current_skill then
      Some (match current_skill with
            | Some e => dict_get (ps_level e) "novice"
            | None => "novice"
            end)
    else None in
  let match_score :=
    if entry_truthy current_skill then
      calculate_skill_match_score current_level required_level
    else 0 in
  let gap_severity := calculate_gap_severity current_level required_level requirements in
  mkSkillMatch required_level current_level match_score is_critical weight gap_severity.

(** [_calculate_hard_skills_score]: the loop accumulates the weighted
    score and the total weight. *)
Definition hard_skills_step (acc : Q * Q) (m : SkillMatch) : Q * Q :=
  let effective_weight := sm_weight m * (if sm_is_critical m then 2 else 1) in
  (fst acc + sm_match_score m * effective_weight, snd acc + effective_weight).

Definition calculate_hard_skills_score (skill_matches : list SkillMatch) : Q :=
  match skill_matches with
  | [] => 0
  | _ =>
      let '(total_weighted_score, total_weight) :=
        fold_left hard_skills_step skill_matches (0, 0) in
      if Qlt_le_dec 0 total_weight then total_weighted_score / total_weight
      else 0
  end.

(** Truthiness of an optional number: [None] and [0] are falsy. *)
Definition num_truthy (o : option Q) : bool :=
  match o with None => false | Some x => negb (Qeq_bool x 0) end.

(** [_calculate_experience_score]; [None] stands for the
    [ZeroDivisionError] of the deficit branch. *)
Definition calculate_experience_score (experience_years : option Q)
    (min_experience_years : option Q) : option Q :=
  if negb (num_truthy experience_years) then Some (3#10)
  else
    (* [vacancy.min_experience_years or 0] *)
    let required_experience := if num_truthy min_experience_years
                               then dict_get min_experience_years 0 else 0 in
    let employee_experience := dict_get experience_years 0 in
    if Qle_bool required_experience employee_experience then
      let excess_years := employee_experience - required_experience in
      let bonus := py_min (3#10) (excess_years * (5#100)) in
      Some (py_min 1 ((8#10) + bonus))
    else if Qeq_bool required_experience 0 then None
    else
      let deficit_ratio := employee_experience / required_experience in
      Some (py_max (2#10) (deficit_ratio * (7#10))).

(** [self.weights] of [MatchingService.__init__]. *)
Definition w_hard_skills : Q := 4#10.
Definition w_soft_skills : Q := 2#10.
Definition w_experience : Q := 25#100.
Definition w_culture_fit : Q := 15#100.

(** The total score of [match_employee_to_vacancy]. *)
Definition total_score (hard_skills_score soft_skills_score experience_score
    culture_fit_score : Q) : Q :=
  hard_skills_score * w_hard_skills +
  soft_skills_score * w_soft_skills +
  experience_score * w_experience +
  culture_fit_score * w_culture_fit.

(** The total score computed from the analysed skill matches and the
    other three components. *)
Definition match_total (skill_matches : list SkillMatch)
    (soft_skills_score experience_score culture_fit_score : Q) : Q :=
  total_score (calculate_hard_skills_score skill_matches)
    soft_skills_score experience_score culture_fit_score.

(** [class MatchType(str, Enum)] *)
Inductive MatchType := EXACT | PARTIAL | POTENTIAL | STRETCH.

(** [self.match_thresholds] *)
Definition match_threshold (t : MatchType) : Q :=
  match t with
  | EXACT => 9#10 | PARTIAL => 7#10 | POTENTIAL => 5#10 | STRETCH => 3#10
  end.

(** [_determine_match_type] *)
Definition determine_match_type (total : Q) : MatchType :=
  if Qle_bool (match_threshold EXACT) total then EXACT
  else if Qle_bool (match_threshold PARTIAL) total then PARTIAL
  else if Qle_bool (match_threshold POTENTIAL) total then POTENTIAL
  else STRETCH.

(** Tier order [stretch < potential < partial < exact]. *)
Definition match_type_rank (t : MatchType) : nat :=
  match t with STRETCH => 0 | POTENTIAL => 1 | PARTIAL => 2 | EXACT => 3 end.

Definition match_type_eqb (a b : MatchType) : bool :=
  Nat.eqb (match_type_rank a) (match_type_rank b).

End Scoring.

(** ** Ranking orchestrator: [find_candidates_for_vacancy] *)
Module Ranking.
Import Scoring.

(** Python slice prefix [l[:n]]: a negative [n] counts from the end. *)
Definition py_prefix {A} (l : list A) (n : Z) : list A :=
  if (0 <=? n)%Z then firstn (Z.to_nat n) l
  else firstn (List.length l - Z.to_nat (- n)) l.

(** A candidate before ranking: employee identity and its [MatchResult]
    total score. *)
Definition Scored := (Z * Q)%type.

(** [CandidateRanking] (identity, total score, match type, rank). *)
Record CandidateRanking := mkCandidateRanking {
  cr_employee_id : Z;
  cr_total_score : Q;
  cr_match_type : MatchType;
  cr_rank : nat
}.

(** The filtering loop over [employees] in the order the store returns
    them; [match_employee_to_vacancy] gives [None] or the total score. *)
Fixpoint collect_candidates (match_employee_to_vacancy : Z -> option Q)
    (min_score : Q) (include_stretch : bool) (employees : list Z)
    : list Scored :=
  match employees with
  | [] => []
  | e :: rest =>
      let tail := collect_candidates match_employee_to_vacancy min_score
                    include_stretch rest in
      match match_employee_to_vacancy e with
      | Some total =>
          if Qle_bool min_score total then
            if negb include_stretch &&
               match_type_eqb (determine_match_type total) STRETCH
            then tail
            else (e, total) :: tail
          else tail
      | None => tail
      end
  end.

(** [list.sort(key=total_score, reverse=True)]: Python's sort is stable,
    also with [reverse=True], so equal keys keep their original order.
    Insertion of an element that precedes all of [l] in the input. *)
Fixpoint insert_desc (x : Scored) (l : list Scored) : list Scored :=
  match l with
  | [] => [x]
  | y :: l' => if Qle_bool (snd y) (snd x) then x :: l else y :: insert_desc x l'
  end.

Fixpoint sort_desc (l : list Scored) : list Scored :=
  match l with
  | [] => []
  | x :: l' => insert_desc x (sort_desc l')
  end.

(** Rank assignment [candidate.rank = i + 1] over [candidates[:limit]]. *)
Fixpoint assign_ranks (i : nat) (l : list Scored) : list CandidateRanking :=
  match l with
  | [] => []
  | (e, t) :: l' =>
      mkCandidateRanking e t (determine_match_type t) (S i) :: assign_ranks (S i) l'
  end.

(** [find_candidates_for_vacancy] after the vacancy and the eligible
    (active, mobility-ready) employees have been read. *)
Definition find_candidates_for_vacancy (match_employee_to_vacancy : Z -> option Q)
    (employees : list Z) (limit : Z) (min_score : Q) (include_stretch : bool)
    : list CandidateRanking :=
  let candidates := collect_candidates match_employee_to_vacancy min_score
                      include_stretch employees in
  assign_ranks 0 (py_prefix (sort_desc candidates) limit).

End Ranking.

(** ** Skill graph store *)
Module SkillStore.

(** ASCII lower-casing of a UTF-8 string, byte by byte. It serves the
    test ['lead' in role.lower()] only: the bytes of a multi-byte UTF-8
    character are never ASCII, and the only characters outside ASCII that
    [str.lower] maps into ASCII are the KELVIN SIGN (to k) and the capital
    I with dot above (to i and a combining dot), none of them a letter of
    'lead', so that test has the same outcome. The name lookup of
    [create_skill] takes its case foldings as arguments instead. *)
Definition ascii_lower (c : Ascii.ascii) : Ascii.ascii :=
  let n := Ascii.nat_of_ascii c in
  if (65 <=? n)%nat && (n <=? 90)%nat then Ascii.ascii_of_nat (n + 32) else c.

Fixpoint lower (s : string) : string :=
  match s with
  | EmptyString => EmptyString
  | String c s' => String (ascii_lower c) (lower s')
  end.

(** A row of the [SkillGraph] table. *)
Record SkillNode := mkSkillNode {
  sk_id : Z;
  sk_name : string;
  sk_category : string;
  sk_description : option string;
  sk_parent_skill_id : option Z;
  sk_skill_path : string;
  sk_level : Z;
  sk_embedding : list Q;
  sk_is_active : bool
}.

Definition Store := list SkillNode.

(** [result.scalar_one_or_none()]: [inl None] for no row, [inl (Some r)]
    for one row, [inr tt] for the [MultipleResultsFound] error. *)
Definition scalar_one_or_none {A} (rows : list A) : option A + unit :=
  match rows with
  | [] => inl None
  | [r] => inl (Some r)
  | _ => inr tt
  end.

(** [SkillCategory] values. *)
Definition skill_categories : list string :=
  ["technical"; "soft_skills"; "language"; "certification";
   "domain_knowledge"; "tool"; "framework"; "methodology"].

(** [SkillGraphService.create_skill]. The lookup
    [func.lower(SkillGraph.name) == name.lower()] compares the database's
    [lower] of each stored name, [sql_lower], with Python's [str.lower] of
    [name], [py_lower]; both are Unicode case mappings (the database's
    depends on its locale) and are left abstract. [get_embedding] is the
    embedding collaborator ([None] when it raises), [new_id] the [uuid4()]
    drawn for the new row. Any exception makes the method return [None]
    with the store unchanged. *)
Definition create_skill (sql_lower py_lower : string -> string)
    (get_embedding : string -> option (list Q)) (new_id : Z)
    (name category : string) (description : option string)
    (parent_skill_id : option Z) (st : Store) : option Z * Store :=
  match scalar_one_or_none
          (filter (fun n => String.eqb (sql_lower (sk_name n)) (py_lower name)) st) with
  | inr _ => (None, st)
  | inl (Some existing_skill) => (Some (sk_id existing_skill), st)
  | inl None =>
      let embedding_text :=
        name ++ " " ++ dict_get description "" ++ " " ++ category in
      match get_embedding embedding_text with
      | None => (None, st)
      | Some embedding =>
          let parent :=
            match parent_skill_id with
            | None => inl None
            | Some pid => scalar_one_or_none (filter (fun n => Z.eqb (sk_id n) pid) st)
            end in
          match parent with
          | inr _ => (None, st)
          | inl p =>
              let '(level, skill_path) :=
                match p with
                | Some parent_skill =>
                    ((sk_level parent_skill + 1)%Z,
                     sk_skill_path parent_skill ++ " > " ++ name)
                | None => (1%Z, name)
                end in
              let new_skill := mkSkillNode new_id name category description
                                 parent_skill_id skill_path level embedding true in
              (Some new_id, (st ++ [new_skill])%list)
          end
      end
  end.

(** The rows the lookup of [create_skill] finds for [name]. *)
Definition same_name (sql_lower py_lower : string -> string) (name : string)
    (st : Store) : list SkillNode :=
  filter (fun n => String.eqb (sql_lower (sk_name n)) (py_lower name)) st.

End SkillStore.

(** ** Semantic skill search *)
Module Search.
Import SkillStore.

(** [@dataclass SkillSearchResult] *)
Record SkillSearchResult := mkSkillSearchResult {
  ssr_skill_id : Z;
  ssr_name : string;
  ssr_category : string;
  ssr_similarity : Q
}.

(** [ORDER BY embedding <=> :query_embedding]: ascending cosine distance,
    by insertion on the rows that pass the [WHERE] clause. *)
Fixpoint insert_by_distance (d : SkillNode -> Q) (x : SkillNode)
    (l : list SkillNode) : list SkillNode :=
  match l with
  | [] => [x]
  | y :: l' => if Qle_bool (d x) (d y) then x :: l else y :: insert_by_distance d x l'
  end.

Fixpoint order_by_distance (d : SkillNode -> Q) (l : list SkillNode) : list SkillNode :=
  match l with
  | [] => []
  | x :: l' => insert_by_distance d x (order_by_distance d l')
  end.

(** [SkillGraphService.search_skills_semantic]. [get_embedding] is the
    embedding collaborator ([None] when it raises), [cosine_distance]
    the pgvector operator [<=>], [query_ok] is [false] when building or
    executing the statement raises; every exception is turned into the
    empty list by the [except] clause. [LIMIT] with a negative count is
    an SQL error, and so is a stored category outside [SkillCategory]
    when the row is converted. *)
Definition search_skills_semantic (get_embedding : string -> option (list Q))
    (cosine_distance : list Q -> list Q -> Q) (query_ok : bool) (st : Store)
    (query : string) (limit : Z) (similarity_threshold : Q)
    (categories : list string) : list SkillSearchResult :=
  match get_embedding query with
  | None => []
  | Some query_embedding =>
      if negb query_ok || (limit <? 0)%Z then []
      else
        let distance := fun n => cosine_distance (sk_embedding n) query_embedding in
        let similarity := fun n => 1 - distance n in
        let rows :=
          filter (fun n =>
                    sk_is_active n &&
                    (match categories with
                     | [] => true
                     | _ => existsb (String.eqb (sk_category n)) categories
                     end) &&
                    Qle_bool similarity_threshold (similarity n)) st in
        let rows := firstn (Z.to_nat limit) (order_by_distance distance rows) in
        if forallb (fun n => existsb (String.eqb (sk_category n)) skill_categories) rows
        then map (fun n => mkSkillSearchResult (sk_id n) (sk_name n) (sk_category n)
                             (similarity n)) rows
        else []
  end.

End Search.

(** ** Profiles, vacancies and the heuristic scores (MatchingService) *)
Module Heuristics.
Import Scoring.

(** [role.skills_required]: requirement dictionary keyed by skill id string. *)
Record Role := mkRole {
  role_skills_required : list (string * Requirement)
}.

(** The [Employee] columns read by the matching service; [skills] is the
    JSON dictionary keyed by skill id string, [None] columns are
    [None]. *)
Record Employee := mkEmployee {
  emp_full_name : option string;
  emp_current_role : option string;
  emp_department : option string;
  emp_location : option string;
  emp_experience_years : option Q;
  emp_skills : list (string * ProfileSkill);
  emp_departments_worked : list string;
  emp_mobility_ready : bool
}.

(** The [Vacancy] columns read by the matching service. *)
Record Vacancy := mkVacancy {
  vac_department : option string;
  vac_location : option string;
  vac_min_experience_years : option Q;
  vac_role : option Role;
  vac_required_skills_override : list (string * Requirement)
}.

(** [d.get(k)] on a dictionary kept as an association list in insertion
    order (keys are unique). *)
Fixpoint assoc_get {A} (k : string) (d : list (string * A)) : option A :=
  match d with
  | [] => None
  | (k', v) :: d' => if String.eqb k k' then Some v else assoc_get k d'
  end.


(** [vacancy.role and vacancy.role.skills_required] is truthy. *)
Definition role_has_skills (v : Vacancy) : bool :=
  match vac_role v with
  | Some r => match role_skills_required r with [] => false | _ => true end
  | None => false
  end.

(** ['lead' in employee.current_role.lower()] *)
Definition has_lead (role : string) : bool :=
  match String.index 0 "lead" (SkillStore.lower role) with
  | Some _ => true
  | None => false
  end.

(** [_calculate_soft_skills_score] *)
Definition calculate_soft_skills_score (employee : Employee) : Q :=
  let factors :=
    ((if num_truthy (emp_experience_years employee) &&
         negb (Qle_bool (dict_get (emp_experience_years employee) 0) 2)
      then [1#10] else []) ++
     (if str_truthy (emp_current_role employee) &&
         has_lead (dict_get (emp_current_role employee) "")
      then [15#100] else []) ++
     (if (1 <? List.length (emp_departments_worked employee))%nat
      then [1#10] else []))%list in
  fold_left (fun base_score factor => py_min 1 (base_score + factor)) factors (7#10).

(** Python [==] on optional strings ([None == None] is [True]). *)
Definition opt_str_eqb (a b : option string) : bool :=
  match a, b with
  | Some x, Some y => String.eqb x y
  | None, None => true
  | _, _ => false
  end.

(** [_calculate_culture_fit_score] *)
Definition calculate_culture_fit_score (employee : Employee) (vacancy : Vacancy) : Q :=
  let base_score := 75#100 in
  let base_score := if opt_str_eqb (emp_department employee) (vac_department vacancy)
                    then base_score + (1#10) else base_score in
  let base_score := if opt_str_eqb (emp_location employee) (vac_location vacancy)
                    then base_score + (5#100) else base_score in
  let base_score := if emp_mobility_ready employee then base_score + (1#10)
                    else base_score in
  py_min 1 base_score.

(** The list of [confidence_factors] of [_calculate_confidence]. *)
Definition confidence_factors (skill_matches : list SkillMatch)
    (employee : Employee) (vacancy : Vacancy) : list Q :=
  let data :=
    match skill_matches with
    | [] => []
    | _ =>
        let skills_with_data :=
          List.length (filter (fun m => str_truthy (sm_current_level m)) skill_matches) in
        [inject_Z (Z.of_nat skills_with_data) / inject_Z (Z.of_nat (List.length skill_matches))]
    end in
  let add (b : bool) (p : Q) := if b then p + (2#10) else p in
  let profile_completeness :=
    add (str_truthy (emp_department employee))
      (add (match emp_skills employee with [] => false | _ => true end)
        (add (num_truthy (emp_experience_years employee))
          (add (str_truthy (emp_current_role employee))
            (add (str_truthy (emp_full_name employee)) 0)))) in
  let vacancy_completeness := 5#10 in
  let vacancy_completeness := if role_has_skills vacancy
                              then vacancy_completeness + (3#10)
                              else vacancy_completeness in
  let vacancy_completeness := if num_truthy (vac_min_experience_years vacancy)
                              then vacancy_completeness + (2#10)
                              else vacancy_completeness in
  (data ++ [profile_completeness; vacancy_completeness])%list.

(** [_calculate_confidence] *)
Definition calculate_confidence (skill_matches : list SkillMatch)
    (employee : Employee) (vacancy : Vacancy) : Q :=
  match confidence_factors skill_matches employee vacancy with
  | [] => 1#2
  | fs => fold_left Qplus fs 0 / inject_Z (Z.of_nat (List.length fs))
  end.

End Heuristics.

(** ** Skill gaps, match analysis and persistence (MatchingService) *)
Module MatchAnalysis.
Import Scoring Heuristics.

(** [SkillLevel(s)]: [None] for the [ValueError] of a value off the scale. *)
Definition skill_level_of_string (s : string) : option SkillLevel :=
  if String.eqb s "novice" then Some NOVICE
  else if String.eqb s "beginner" then Some BEGINNER
  else if String.eqb s "intermediate" then Some INTERMEDIATE
  else if String.eqb s "advanced" then Some ADVANCED
  else if String.eqb s "expert" then Some EXPERT
  else None.

(** [@dataclass SkillGap] *)
Record SkillGap := mkSkillGap {
  gap_skill_id : Z;
  gap_skill_name : string;
  gap_required_level : SkillLevel;
  gap_current_level : option SkillLevel;
  gap_severity : string
}.

(** A [SkillMatch] with the [skill_id] and [skill_name] fields. *)
Definition NamedMatch := (Z * string * SkillMatch)%type.

(** The loop of [_analyze_skills_match]. [parse_uuid] is [UUID(...)]
    ([None] for its [ValueError], the entry is skipped) and
    [skill_name_of] the [SkillGraph] lookup ([None]: skipped). [None] as
    a result stands for an exception raised in the loop. *)
Fixpoint analyze_loop (parse_uuid : string -> option Z)
    (skill_name_of : Z -> option string)
    (employee_skills : list (string * ProfileSkill))
    (required_skills : list (string * Requirement))
    : option (list NamedMatch * list SkillGap) :=
  match required_skills with
  | [] => Some ([], [])
  | (skill_id_str, requirements) :: rest =>
      let continue_ := analyze_loop parse_uuid skill_name_of employee_skills rest in
      match parse_uuid skill_id_str with
      | None => continue_
      | Some skill_id =>
          match skill_name_of skill_id with
          | None => continue_
          | Some name =>
              let m := analyze_skill_entry (assoc_get skill_id_str employee_skills)
                         requirements in
              let gap :=
                if String.eqb (sm_gap_severity m) "none" then Some None
                else
                  match skill_level_of_string (sm_required_level m) with
                  | None => None
                  | Some req =>
                      if str_truthy (sm_current_level m) then
                        match skill_level_of_string (dict_get (sm_current_level m) "") with
                        | None => None
                        | Some cur => Some (Some (mkSkillGap skill_id name req (Some cur)
                                                   (sm_gap_severity m)))
                        end
                      else Some (Some (mkSkillGap skill_id name req None (sm_gap_severity m)))
                  end in
              match gap, continue_ with
              | Some g, Some (ms, gs) =>
                  Some ((skill_id, name, m) :: ms,
                        match g with Some g' => g' :: gs | None => gs end)
              | _, _ => None
              end
          end
      end
  end.

(** The requirements of [_analyze_skills_match]: from the role when it
    has some, else from [required_skills_override] (or [{}]). *)
Definition required_skills_of (vacancy : Vacancy) : list (string * Requirement) :=
  if role_has_skills vacancy then
    match vac_role vacancy with Some r => role_skills_required r | None => [] end
  else vac_required_skills_override vacancy.

(** [_analyze_skills_match]; an exception gives [([], [])]. *)
Definition analyze_skills_match (parse_uuid : string -> option Z)
    (skill_name_of : Z -> option string) (employee : Employee) (vacancy : Vacancy)
    : list NamedMatch * list SkillGap :=
  match analyze_loop parse_uuid skill_name_of (emp_skills employee)
          (required_skills_of vacancy) with
  | Some p => p
  | None => ([], [])
  end.

(** The text returned by [_generate_recommendation], by case. *)
Inductive Recommendation :=
  | RecommendExcellent      (* "... - отличное соответствие" *)
  | RecommendGood           (* "... - хорошее соответствие" *)
  | RecommendAfterCritical  (* "Рассмотреть после устранения критических пробелов" *)
  | RecommendDevelop        (* "Потенциальный кандидат - требует развития навыков" *)
  | NotRecommended.         (* "Не рекомендуется - ..." *)

(** [_generate_recommendation] *)
Definition generate_recommendation (match_type : MatchType) (total_score : Q)
    (skill_gaps : list SkillGap) : Recommendation :=
  match match_type with
  | EXACT => RecommendExcellent
  | PARTIAL => RecommendGood
  | POTENTIAL =>
      if existsb (fun g => String.eqb (gap_severity g) "critical") skill_gaps
      then RecommendAfterCritical else RecommendDevelop
  | STRETCH => NotRecommended
  end.

(** The messages of [_analyze_strengths_and_concerns], with the names
    or values they show. *)
Inductive Strength :=
  | StrongSkills (names : list string)
  | RichExperience (years : Q)
  | KnowsDepartment.

Inductive Concern :=
  | CriticalGaps (names : list string)
  | SignificantGaps (names : list string)
  | InsufficientExperience.

(** [_analyze_strengths_and_concerns] *)
Definition analyze_strengths_and_concerns (skill_matches : list NamedMatch)
    (skill_gaps : list SkillGap) (employee : Employee) (vacancy : Vacancy)
    : list Strength * list Concern :=
  let strong_skills :=
    filter (fun m => Qle_bool (9#10) (sm_match_score (snd m))) skill_matches in
  let min_exp := if num_truthy (vac_min_experience_years vacancy)
                 then dict_get (vac_min_experience_years vacancy) 0 else 0 in
  let years := dict_get (emp_experience_years employee) 0 in
  let strengths :=
    ((match strong_skills with
      | [] => []
      | _ => [StrongSkills (map (fun m => snd (fst m)) (firstn 3 strong_skills))]
      end) ++
     (if num_truthy (emp_experience_years employee) && negb (Qle_bool years min_exp)
      then [RichExperience years] else []) ++
     (if opt_str_eqb (emp_department employee) (vac_department vacancy)
      then [KnowsDepartment] else []))%list in
  let critical_gaps := filter (fun g => String.eqb (gap_severity g) "critical") skill_gaps in
  let high_gaps := filter (fun g => String.eqb (gap_severity g) "high") skill_gaps in
  let concerns :=
    ((match critical_gaps with
      | [] => []
      | _ => [CriticalGaps (map gap_skill_name (firstn 2 critical_gaps))]
      end) ++
     (match high_gaps with
      | [] => []
      | _ => [SignificantGaps (map gap_skill_name (firstn 2 high_gaps))]
      end) ++
     (if num_truthy (emp_experience_years employee) && negb (Qle_bool min_exp years)
      then [InsufficientExperience] else []))%list in
  (strengths, concerns).





(** The fields of a [MatchResult] that [_save_match_result] writes. *)
Record MatchOutcome := mkMatchOutcome {
  mo_employee_id : Z;
  mo_vacancy_id : Z;
  mo_total_score : Q;
  mo_hard_skills_score : Q;
  mo_soft_skills_score : Q;
  mo_skill_gaps : list SkillGap;
  mo_explanation : string
}.

(** A row of the [Match] table; [gaps] holds the serialised gaps. *)
Record MatchRow := mkMatchRow {
  row_employee_id : Z;
  row_vacancy_id : Z;
  row_score_total : Q;
  row_score_hard : Q;
  row_score_soft : Q;
  row_gaps : list SkillGap;
  row_explanation : string;
  row_updated_at : option Z
}.

Definition same_pair (e v : Z) (r : MatchRow) : bool :=
  Z.eqb (row_employee_id r) e && Z.eqb (row_vacancy_id r) v.

(** [_save_match_result] with [datetime.utcnow()] = [now]: update the
    row of the pair, or add one; [MultipleResultsFound] is caught and
    rolled back. *)
Definition save_match_result (now : Z) (mr : MatchOutcome) (st : list MatchRow)
    : list MatchRow :=
  let key := same_pair (mo_employee_id mr) (mo_vacancy_id mr) in
  match SkillStore.scalar_one_or_none (filter key st) with
  | inr _ => st
  | inl (Some _) =>
      map (fun r => if key r then
                      mkMatchRow (row_employee_id r) (row_vacancy_id r)
                        (mo_total_score mr) (mo_hard_skills_score mr)
                        (mo_soft_skills_score mr) (mo_skill_gaps mr)
                        (mo_explanation mr) (Some now)
                    else r) st
  | inl None =>
      (st ++ [mkMatchRow (mo_employee_id mr) (mo_vacancy_id mr) (mo_total_score mr)
                (mo_hard_skills_score mr) (mo_soft_skills_score mr)
                (mo_skill_gaps mr) (mo_explanation mr) None])%list
  end.

(** [find_roles_for_employee] after the open vacancies have been read:
    the same filter as for candidates, a stable sort by descending total
    score and [role_matches[:limit]]; entries are (vacancy id, total). *)
Definition find_roles_for_employee (match_employee_to_vacancy : Z -> option Q)
    (vacancies : list Z) (limit : Z) (min_score : Q) (include_stretch : bool)
    : list Ranking.Scored :=
  Ranking.py_prefix
    (Ranking.sort_desc (Ranking.collect_candidates match_employee_to_vacancy
                          min_score include_stretch vacancies)) limit.

End MatchAnalysis.

(** ** Gap analysis and relationships (SkillGraphService) *)
Module SkillGraphOps.
Import Scoring MatchAnalysis.

(** [severity_order.get(x.gap_severity, 4)] of [analyze_skill_gaps]. *)
Definition severity_order (s : string) : nat :=
  if String.eqb s "critical" then 0
  else if String.eqb s "high" then 1
  else if String.eqb s "medium" then 2
  else if String.eqb s "low" then 3
  else 4.

(** [list.sort(key=...)]: a stable insertion sort by ascending key.
    [x] precedes every element of [l] in the input, so it goes before
    the first element whose key is not smaller. *)
Fixpoint insert_by_key (x : SkillGap) (l : list SkillGap) : list SkillGap :=
  match l with
  | [] => [x]
  | y :: l' =>
      if Nat.leb (severity_order (gap_severity x)) (severity_order (gap_severity y))
      then x :: l
      else y :: insert_by_key x l'
  end.

Fixpoint sort_by_key (l : list SkillGap) : list SkillGap :=
  match l with
  | [] => []
  | x :: l' => insert_by_key x (sort_by_key l')
  end.

(** The lookup [employee_skills.get(skill_id)] on a dictionary keyed by
    skill id. *)
Fixpoint skill_get (k : Z) (d : list (Z * ProfileSkill)) : option ProfileSkill :=
  match d with
  | [] => None
  | (k', v) :: d' => if Z.eqb k k' then Some v else skill_get k d'
  end.

(** The loop of [analyze_skill_gaps]; [skill_name_of] is the
    [SkillGraph] lookup and [None] an exception ([SkillLevel(...)] on a
    value off the scale). *)
Fixpoint skill_gaps_loop (skill_name_of : Z -> option string)
    (employee_skills : list (Z * ProfileSkill))
    (required_skills : list (Z * Requirement)) : option (list SkillGap) :=
  match required_skills with
  | [] => Some []
  | (skill_id, requirements) :: rest =>
      let continue_ := skill_gaps_loop skill_name_of employee_skills rest in
      match skill_name_of skill_id with
      | None => continue_
      | Some name =>
          let current_skill := skill_get skill_id employee_skills in
          match skill_level_of_string (dict_get (req_min_level requirements) "novice") with
          | None => None
          | Some required_level =>
              let current_level :=
                if Scoring.entry_truthy current_skill then
                  match current_skill with
                  | Some e => option_map Some (skill_level_of_string (dict_get (ps_level e) "novice"))
                  | None => Some None
                  end
                else Some None in
              match current_level with
              | None => None
              | Some cur =>
                  let gap_severity :=
                    SkillGraphService.calculate_gap_severity cur required_level requirements in
                  match continue_ with
                  | None => None
                  | Some gs =>
                      if String.eqb gap_severity "none" then Some gs
                      else Some (mkSkillGap skill_id name required_level cur gap_severity :: gs)
                  end
              end
          end
      end
  end.

(** [analyze_skill_gaps]: the gaps sorted by severity; [[]] on an
    exception. *)
Definition analyze_skill_gaps (skill_name_of : Z -> option string)
    (employee_skills : list (Z * ProfileSkill))
    (required_skills : list (Z * Requirement)) : list SkillGap :=
  match skill_gaps_loop skill_name_of employee_skills required_skills with
  | Some gaps => sort_by_key gaps
  | None => []
  end.

(** [_gap_to_priority] *)
Definition gap_to_priority (gap_severity : string) : Z :=
  if String.eqb gap_severity "critical" then 1
  else if String.eqb gap_severity "high" then 2
  else if String.eqb gap_severity "medium" then 3
  else if String.eqb gap_severity "low" then 4
  else if String.eqb gap_severity "none" then 5
  else 5.

(** [level_weeks] of [_estimate_learning_time]. *)
Definition level_weeks (l : SkillLevel) : Z :=
  match l with
  | NOVICE => 0 | BEGINNER => 4 | INTERMEDIATE => 12
  | ADVANCED => 24 | EXPERT => 48
  end.

(** [_estimate_learning_time] *)
Definition estimate_learning_time (current_level : option SkillLevel)
    (target_level : SkillLevel) : Z :=
  let current_level := match current_level with Some l => l | None => NOVICE end in
  Z.max 2 (level_weeks target_level - level_weeks current_level).

(** [RelationshipType] *)
Inductive RelationshipType := PREREQUISITE | COMPLEMENT | ALTERNATIVE | UPGRADE.

(** [RelationshipType.value] *)
Definition relationship_type_value (t : RelationshipType) : string :=
  match t with
  | PREREQUISITE => "prerequisite"
  | COMPLEMENT => "complement"
  | ALTERNATIVE => "alternative"
  | UPGRADE => "upgrade"
  end.

(** A row of [SkillRelationship]. *)
Record SkillRelationship := mkSkillRelationship {
  rel_id : Z;
  rel_from_skill_id : Z;
  rel_to_skill_id : Z;
  rel_relationship_type : string;
  rel_strength : Q
}.

Definition same_relation (from_skill_id to_skill_id : Z) (relationship_type : string)
    (r : SkillRelationship) : bool :=
  Z.eqb (rel_from_skill_id r) from_skill_id && Z.eqb (rel_to_skill_id r) to_skill_id
  && String.eqb (rel_relationship_type r) relationship_type.

(** [add_skill_relationship] with [uuid4()] = [new_id]: the strength of
    an existing relation is updated, otherwise one is added;
    [MultipleResultsFound] gives [False] and no change. *)
Definition add_skill_relationship (new_id from_skill_id to_skill_id : Z)
    (relationship_type : RelationshipType) (strength : Q) (st : list SkillRelationship)
    : bool * list SkillRelationship :=
  let key := same_relation from_skill_id to_skill_id
               (relationship_type_value relationship_type) in
  match SkillStore.scalar_one_or_none (filter key st) with
  | inr _ => (false, st)
  | inl (Some _) =>
      (true, map (fun r => if key r then
                             mkSkillRelationship (rel_id r) (rel_from_skill_id r)
                               (rel_to_skill_id r) (rel_relationship_type r) strength
                           else r) st)
  | inl None =>
      (true, (st ++ [mkSkillRelationship new_id from_skill_id to_skill_id
                       (relationship_type_value relationship_type) strength])%list)
  end.

End SkillGraphOps.

(** ** [match_employee_to_vacancy] *)
Module MatchPipeline.
Import Scoring Heuristics MatchAnalysis.

(** [@dataclass MatchResult] *)
Record MatchResult := mkMatchResult {
  res_employee_id : Z;
  res_vacancy_id : Z;
  res_total_score : Q;
  res_hard_skills_score : Q;
  res_soft_skills_score : Q;
  res_experience_score : Q;
  res_culture_fit_score : Q;
  res_match_type : MatchType;
  res_skill_matches : list NamedMatch;
  res_skill_gaps : list SkillGap;
  res_strengths : list Strength;
  res_concerns : list Concern;
  res_explanation : string;
  res_confidence : Q;
  res_recommendation : Recommendation
}.

Section Pipeline.
(** [UUID(...)] and the [SkillGraph] lookup of [_analyze_skills_match]. *)
Variable parse_uuid : string -> option Z.
Variable skill_name_of : Z -> option string.
(** The [Employee] and [Vacancy] queries. *)
Variable get_employee : Z -> option Employee.
Variable get_vacancy : Z -> option Vacancy.
(** [_generate_match_explanation]: the AI text, or its fallback text when
    the AI call raises. *)
Variable generate_match_explanation :
  Employee -> Vacancy -> Q -> list SkillGap -> list Strength -> list Concern -> string.

(** [match_employee_to_vacancy] with [datetime.utcnow()] = [now] for the
    save; [None] for a missing row or an exception. *)
Definition match_employee_to_vacancy (employee_id vacancy_id : Z) (save_result : bool)
    (now : Z) (st : list MatchRow) : option MatchResult * list MatchRow :=
  match get_employee employee_id with
  | None => (None, st)
  | Some employee =>
      match get_vacancy vacancy_id with
      | None => (None, st)
      | Some vacancy =>
          let '(skill_matches, skill_gaps) :=
            analyze_skills_match parse_uuid skill_name_of employee vacancy in
          let hard_skills_score := calculate_hard_skills_score (map snd skill_matches) in
          let soft_skills_score := calculate_soft_skills_score employee in
          match calculate_experience_score (emp_experience_years employee)
                  (vac_min_experience_years vacancy) with
          | None => (None, st)
          | Some experience_score =>
              let culture_fit_score := calculate_culture_fit_score employee vacancy in
              let total := total_score hard_skills_score soft_skills_score
                             experience_score culture_fit_score in
              let match_type := determine_match_type total in
              let '(strengths, concerns) :=
                analyze_strengths_and_concerns skill_matches skill_gaps employee vacancy in
              let explanation := generate_match_explanation employee vacancy total
                                   skill_gaps strengths concerns in
              let confidence := calculate_confidence (map snd skill_matches) employee vacancy in
              let recommendation := generate_recommendation match_type total skill_gaps in
              let match_result :=
                mkMatchResult employee_id vacancy_id total hard_skills_score
                  soft_skills_score experience_score culture_fit_score match_type
                  skill_matches skill_gaps strengths concerns explanation confidence
                  recommendation in
              (Some match_result,
               if save_result then
                 save_match_result now
                   (mkMatchOutcome employee_id vacancy_id total hard_skills_score
                      soft_skills_score skill_gaps explanation) st
               else st)
          end
      end
  end.

End Pipeline.

End MatchPipeline.

(** ** Notions used in the statements *)

(** Ordinal of a scale level in [level_scores] of
    [_calculate_skill_match_score] (1 .. 5). *)
Definition score_ordinal (l : SkillLevel) : Z :=
  dict_get (MatchingService.level_scores (level_value l)) 0%Z.

(** Ordinal gap used by [SkillGraphService._calculate_gap_severity]. *)
Definition ordinal_gap (current required : SkillLevel) : Z :=
  (SkillGraphService.level_order required - SkillGraphService.level_order current)%Z.

(** Total effective weight accumulated by [_calculate_hard_skills_score]. *)
Definition total_effective_weight (ms : list Scoring.SkillMatch) : Q :=
  snd (fold_left Scoring.hard_skills_step ms (0, 0)).

(** Ascending cosine distance, the order of the search query. *)
Definition by_distance (d : SkillStore.SkillNode -> Q) (a b : SkillStore.SkillNode) : Prop :=
  d a <= d b.

(** Descending total score, the order of the candidate ranking;
    [same_score q] selects the candidates of total score [q]. *)
Definition score_desc (a b : Ranking.Scored) : Prop := snd b <= snd a.

Definition same_score (q : Q) (c : Ranking.Scored) : bool := Qeq_bool (snd c) q.

(** Identity and total score of a ranked candidate. *)
Definition candidate_pair (c : Ranking.CandidateRanking) : Ranking.Scored :=
  (Ranking.cr_employee_id c, Ranking.cr_total_score c).



(** Order of [analyze_skill_gaps]. *)
Definition severity_le (a b : MatchAnalysis.SkillGap) : Prop :=
  (SkillGraphOps.severity_order (MatchAnalysis.gap_severity a) <=
   SkillGraphOps.severity_order (MatchAnalysis.gap_severity b))%nat.

(** The gaps of [analyze_skill_gaps] with sort key [k]. *)
Definition severity_class (k : nat) (g : MatchAnalysis.SkillGap) : bool :=
  Nat.eqb (SkillGraphOps.severity_order (MatchAnalysis.gap_severity g)) k.

(** The lookup of [create_skill] finds at most one row for every name. *)
Definition names_unique (sql_lower py_lower : string -> string)
    (st : SkillStore.Store) : Prop :=
  forall n, (List.length (SkillStore.same_name sql_lower py_lower n st) <= 1)%nat.

(** Sample rows for the witnesses. *)
Definition sample_employee : Heuristics.Employee :=
  Heuristics.mkEmployee (Some "Anna") (Some "Team lead") (Some "IT") (Some "Kazan") (Some 3)
    [("s1", Scoring.mkProfileSkill (Some "advanced") (Some 2))] ["IT"; "Sales"] true.

Definition sample_vacancy : Heuristics.Vacancy :=
  Heuristics.mkVacancy (Some "IT") (Some "Moscow") (Some 2) None
    [("s1", mkRequirement (Some "expert") (Some 1) (Some true));
     ("s2", mkRequirement (Some "intermediate") None None)].

Definition sample_vacancy_off_scale : Heuristics.Vacancy :=
  Heuristics.mkVacancy (Some "IT") None None None
    [("s1", mkRequirement (Some "expert") (Some 1) (Some true));
     ("s2", mkRequirement (Some "senior") None None)].

Definition sample_parse_uuid (s : string) : option Z :=
  if String.eqb s "s1" then Some 1%Z else if String.eqb s "s2" then Some 2%Z else None.

Definition sample_skill_name (z : Z) : option string := Some "Python".

Definition sample_outcome : MatchAnalysis.MatchOutcome :=
  MatchAnalysis.mkMatchOutcome 1 2 (8#10) (7#10) (9#10) [] "new".

Definition sample_rows : list MatchAnalysis.MatchRow :=
  [MatchAnalysis.mkMatchRow 1 2 (1#2) (1#2) (1#2) [] "old" None;
   MatchAnalysis.mkMatchRow 3 2 (6#10) (6#10) (6#10) [] "other" None].

Definition sample_duplicate_rows : list MatchAnalysis.MatchRow :=
  [MatchAnalysis.mkMatchRow 1 2 (1#2) (1#2) (1#2) [] "old" None;
   MatchAnalysis.mkMatchRow 1 2 (6#10) (6#10) (6#10) [] "older" None].

Definition sample_relations : list SkillGraphOps.SkillRelationship :=
  [SkillGraphOps.mkSkillRelationship 10 1 2 "prerequisite" (1#2);
   SkillGraphOps.mkSkillRelationship 11 2 3 "complement" 1].

Definition sample_store : SkillStore.Store :=
  [SkillStore.mkSkillNode 1 "Java" "technical" None None "Java" 1 [] true].

(** A case folding of UTF-8 text for the witnesses: ASCII letters and the
    Cyrillic capitals А..Я and Ё (bytes D0 90..D0 AF and D0 81) are
    lowered, as [str.lower] does. *)
Fixpoint sample_lower (s : string) : string :=
  match s with
  | EmptyString => EmptyString
  | String c1 s1 =>
      match s1 with
      | String c2 s2 =>
          if (Ascii.N_of_ascii c1 =? 208)%N then
            let n := Ascii.N_of_ascii c2 in
            if (144 <=? n)%N && (n <=? 159)%N then
              String c1 (String (Ascii.ascii_of_N (n + 32)) (sample_lower s2))
            else if (160 <=? n)%N && (n <=? 175)%N then
              String (Ascii.ascii_of_N 209)
                (String (Ascii.ascii_of_N (n - 32)) (sample_lower s2))
            else if (n =? 129)%N then
              String (Ascii.ascii_of_N 209) (String (Ascii.ascii_of_N 145) (sample_lower s2))
            else String c1 (sample_lower s1)
          else String (SkillStore.ascii_lower c1) (sample_lower s1)
      | EmptyString => String (SkillStore.ascii_lower c1) EmptyString
      end
  end.

(** * Properties *)

Lemma score_ordinal_range (l : SkillLevel) :
  (1 <= score_ordinal l <= 5)%Z.
Proof. destruct l; cbv; split; discriminate. Qed.

Lemma level_value_truthy (l : SkillLevel) :
  str_truthy (Some (level_value l)) = true.
Proof. destruct l; reflexivity. Qed.

Lemma level_scores_value (l : SkillLevel) :
  MatchingService.level_scores (level_value l) = Some (score_ordinal l).
Proof. destruct l; reflexivity. Qed.

(** ** C1 *)

(** C1: on the five-level scale the per-skill match score is 1.0 exactly
    when the current ordinal reaches the required one; below it, it is
    the ratio current/required, strictly between 0 and 1; without a
    profile record (and for [current_level = None]) it is 0.0. *)
Theorem skill_match_score_spec :
  forall c r : SkillLevel,
    let s := MatchingService.calculate_skill_match_score
               (Some (level_value c)) (level_value r) in
    (s == 1 <-> (score_ordinal r <= score_ordinal c)%Z) /\
    ((score_ordinal c < score_ordinal r)%Z ->
       s == inject_Z (score_ordinal c) / inject_Z (score_ordinal r) /\
       0 < s /\ s < 1) /\
    (forall req : Requirement,
       Scoring.sm_match_score (Scoring.analyze_skill_entry None req) == 0) /\
    MatchingService.calculate_skill_match_score None (level_value r) == 0.
Proof.
  intros c r s.
  assert (Hs : s = if (score_ordinal r <=? score_ordinal c)%Z then 1
                   else inject_Z (score_ordinal c) / inject_Z (score_ordinal r)).
  { unfold s, MatchingService.calculate_skill_match_score.
    rewrite level_value_truthy; cbn [negb dict_get].
    rewrite !level_scores_value; reflexivity. }
  pose proof (score_ordinal_range c) as Hc.
  pose proof (score_ordinal_range r) as Hr.
  assert (Hlt : forall a b : Z, (1 <= a)%Z -> (a < b)%Z ->
            0 < inject_Z a / inject_Z b /\ inject_Z a / inject_Z b < 1).
  { intros a b Ha Hab.
    assert (Hb : 0 < inject_Z b) by (change 0 with (inject_Z 0); rewrite <- Zlt_Qlt; lia).
    assert (Ha' : 0 < inject_Z a) by (change 0 with (inject_Z 0); rewrite <- Zlt_Qlt; lia).
    assert (Hab' : inject_Z a < inject_Z b) by (rewrite <- Zlt_Qlt; lia).
    split.
    - apply Qlt_shift_div_l; [exact Hb|]. lra.
    - apply Qlt_shift_div_r; [exact Hb|]. lra. }
  split; [split|split; [intros H; split; [|split]|split]].
  - intros Heq. destruct (Z.leb_spec (score_ordinal r) (score_ordinal c)) as [H|H];
      [exact H|].
    exfalso. rewrite Hs in Heq. destruct (Hlt _ _ (proj1 Hc) H). lra.
  - intros Hle. rewrite Hs. apply Z.leb_le in Hle. rewrite Hle. reflexivity.
  - rewrite Hs. apply Z.leb_gt in H. rewrite H. reflexivity.
  - rewrite Hs. destruct (Hlt _ _ (proj1 Hc) H) as [H1 _].
    apply Z.leb_gt in H. rewrite H. exact H1.
  - rewrite Hs. destruct (Hlt _ _ (proj1 Hc) H) as [_ H1].
    apply Z.leb_gt in H. rewrite H. exact H1.
  - intros req. reflexivity.
  - reflexivity.
Qed.

(** ** C2 *)

Lemma sg_gap_severity_present (c r : SkillLevel) (req : Requirement) :
  SkillGraphService.calculate_gap_severity (Some c) r req =
  let gap := ordinal_gap c r in
  if (gap <=? 0)%Z then "none"
  else if (gap =? 1)%Z then "low"
  else if (gap =? 2)%Z then "medium"
  else if negb (flag_truthy (req_is_critical req)) then "high"
  else "critical".
Proof. reflexivity. Qed.

Lemma severity_of_gap_mono (g1 g2 : Z) (b : bool) :
  (g1 <= g2)%Z ->
  (severity_rank
     (if (g1 <=? 0)%Z then "none" else if (g1 =? 1)%Z then "low"
      else if (g1 =? 2)%Z then "medium" else if negb b then "high" else "critical")
   <= severity_rank
     (if (g2 <=? 0)%Z then "none" else if (g2 =? 1)%Z then "low"
      else if (g2 =? 2)%Z then "medium" else if negb b then "high" else "critical"))%nat.
Proof.
  intros Hle.
  destruct (Z.leb_spec g1 0); destruct (Z.leb_spec g2 0);
  destruct (Z.eqb_spec g1 1); destruct (Z.eqb_spec g2 1);
  destruct (Z.eqb_spec g1 2); destruct (Z.eqb_spec g2 2);
  destruct b; cbv; lia.
Qed.

(** C2: [SkillGraphService._calculate_gap_severity]. Without a current
    level the severity is critical for a critical requirement, else high
    for an advanced/expert requirement, else medium. With a current
    level the ordinal gap gives none (gap <= 0), low (1), medium (2),
    and from 3 on high, or critical exactly when the requirement is
    critical; the severity never decreases as the gap grows. *)
Theorem sg_gap_severity_spec :
  forall (req : Requirement) (r : SkillLevel),
    (flag_truthy (req_is_critical req) = true ->
       SkillGraphService.calculate_gap_severity None r req = "critical") /\
    (flag_truthy (req_is_critical req) = false -> (r = ADVANCED \/ r = EXPERT) ->
       SkillGraphService.calculate_gap_severity None r req = "high") /\
    (flag_truthy (req_is_critical req) = false -> r <> ADVANCED -> r <> EXPERT ->
       SkillGraphService.calculate_gap_severity None r req = "medium") /\
    (forall c : SkillLevel,
       let sev := SkillGraphService.calculate_gap_severity (Some c) r req in
       ((ordinal_gap c r <= 0)%Z -> sev = "none") /\
       (ordinal_gap c r = 1%Z -> sev = "low") /\
       (ordinal_gap c r = 2%Z -> sev = "medium") /\
       ((3 <= ordinal_gap c r)%Z ->
          sev = if flag_truthy (req_is_critical req) then "critical" else "high")) /\
    (forall c1 r1 c2 r2 : SkillLevel,
       (ordinal_gap c1 r1 <= ordinal_gap c2 r2)%Z ->
       (severity_rank (SkillGraphService.calculate_gap_severity (Some c1) r1 req)
        <= severity_rank (SkillGraphService.calculate_gap_severity (Some c2) r2 req))%nat).
Proof.
  intros req r.
  split; [|split; [|split; [|split]]].
  - intros H. cbn. rewrite H. reflexivity.
  - intros H [-> | ->]; cbn; rewrite H; reflexivity.
  - intros H H1 H2. cbn. rewrite H. destruct r; congruence.
  - intros c sev. unfold sev. rewrite sg_gap_severity_present. cbv zeta.
    split; [|split; [|split]].
    + intros H. apply Z.leb_le in H. rewrite H. reflexivity.
    + intros ->. reflexivity.
    + intros ->. reflexivity.
    + intros H.
      destruct (Z.leb_spec (ordinal_gap c r) 0); [lia|].
      destruct (Z.eqb_spec (ordinal_gap c r) 1); [lia|].
      destruct (Z.eqb_spec (ordinal_gap c r) 2); [lia|].
      destruct (flag_truthy (req_is_critical req)); reflexivity.
  - intros c1 r1 c2 r2 Hle. rewrite !sg_gap_severity_present.
    apply severity_of_gap_mono. exact Hle.
Qed.

(** ** C10 *)

(** C10: on valid inputs (current level absent or on the scale, required
    level on the scale) the string-keyed
    [MatchingService._calculate_gap_severity] and the enum-keyed
    [SkillGraphService._calculate_gap_severity] return the same
    severity string. *)
Theorem gap_severity_implementations_agree :
  forall (c : option SkillLevel) (r : SkillLevel) (req : Requirement),
    MatchingService.calculate_gap_severity (option_map level_value c) (level_value r) req =
    SkillGraphService.calculate_gap_severity c r req.
Proof.
  intros c r req.
  destruct c as [c|]; destruct r; try destruct c;
    unfold MatchingService.calculate_gap_severity,
      SkillGraphService.calculate_gap_severity; cbn;
    destruct (flag_truthy (req_is_critical req)); reflexivity.
Qed.

(** ** C3 *)

(** C3: the total score is the fixed combination
    0.40 hard + 0.20 soft + 0.25 experience + 0.15 culture; with no skill
    requirements the hard-skill score is 0.0 and the other weights are
    kept as they are (no renormalisation); the weights sum to 1, so
    component scores in [0,1] give a total in [0,1]. *)
Theorem total_score_spec :
  (forall ms soft exp culture,
     Scoring.match_total ms soft exp culture ==
     (40#100) * Scoring.calculate_hard_skills_score ms + (20#100) * soft
     + (25#100) * exp + (15#100) * culture) /\
  (forall soft exp culture,
     Scoring.match_total [] soft exp culture ==
     (20#100) * soft + (25#100) * exp + (15#100) * culture) /\
  Scoring.w_hard_skills + Scoring.w_soft_skills + Scoring.w_experience
    + Scoring.w_culture_fit == 1 /\
  (forall h s e c,
     0 <= h <= 1 -> 0 <= s <= 1 -> 0 <= e <= 1 -> 0 <= c <= 1 ->
     0 <= Scoring.total_score h s e c <= 1).
Proof.
  unfold Scoring.match_total, Scoring.total_score, Scoring.w_hard_skills,
    Scoring.w_soft_skills, Scoring.w_experience, Scoring.w_culture_fit.
  split; [|split; [|split]].
  - intros. lra.
  - intros. cbn [Scoring.calculate_hard_skills_score]. lra.
  - reflexivity.
  - intros h s e c Hh Hs He Hc. lra.
Qed.

(** ** C4 *)

(** C4: [_determine_match_type] gives exact from 0.9, partial from 0.7,
    potential from 0.5 and stretch below, and a larger total score never
    gives a lower tier. *)
Theorem determine_match_type_spec :
  (forall t, 9#10 <= t -> Scoring.determine_match_type t = Scoring.EXACT) /\
  (forall t, 7#10 <= t -> t < 9#10 -> Scoring.determine_match_type t = Scoring.PARTIAL) /\
  (forall t, 5#10 <= t -> t < 7#10 -> Scoring.determine_match_type t = Scoring.POTENTIAL) /\
  (forall t, t < 5#10 -> Scoring.determine_match_type t = Scoring.STRETCH) /\
  (forall t t', t <= t' ->
     (Scoring.match_type_rank (Scoring.determine_match_type t)
      <= Scoring.match_type_rank (Scoring.determine_match_type t'))%nat).
Proof.
  assert (Hb : forall a b, Qle_bool a b = true <-> a <= b) by apply Qle_bool_iff.
  assert (Hf : forall a b, Qle_bool a b = false <-> b < a).
  { intros a b. split.
    - intros H. apply Qnot_le_lt. intros H'. apply Hb in H'. congruence.
    - intros H. destruct (Qle_bool a b) eqn:E; [|reflexivity].
      apply Hb in E. lra. }
  unfold Scoring.determine_match_type, Scoring.match_threshold.
  split; [|split; [|split; [|split]]].
  - intros t H. apply Hb in H. rewrite H. reflexivity.
  - intros t H1 H2. apply Hf in H2. apply Hb in H1. rewrite H1, H2. reflexivity.
  - intros t H1 H2. assert (H3 : t < 9#10) by lra. apply Hb in H1.
    apply Hf in H2. apply Hf in H3. rewrite H3, H2, H1. reflexivity.
  - intros t H. assert (H2 : t < 7#10) by lra. assert (H3 : t < 9#10) by lra.
    apply Hf in H. apply Hf in H2. apply Hf in H3. rewrite H3, H2, H. reflexivity.
  - intros t t' Hle.
    destruct (Qle_bool (9#10) t) eqn:E1; destruct (Qle_bool (9#10) t') eqn:E1';
    destruct (Qle_bool (7#10) t) eqn:E2; destruct (Qle_bool (7#10) t') eqn:E2';
    destruct (Qle_bool (5#10) t) eqn:E3; destruct (Qle_bool (5#10) t') eqn:E3';
    cbn; try lia;
    repeat match goal with
           | H : Qle_bool _ _ = true |- _ => apply Hb in H
           | H : Qle_bool _ _ = false |- _ => apply Hf in H
           end; lra.
Qed.

(** ** C5 *)

Lemma py_min_cases (a b : Q) :
  (a <= b /\ py_min a b = a) \/ (b < a /\ py_min a b = b).
Proof.
  unfold py_min. destruct (Qle_bool a b) eqn:E.
  - left. split; [apply Qle_bool_iff; exact E | reflexivity].
  - right. split; [|reflexivity]. apply Qnot_le_lt. intros H.
    apply Qle_bool_iff in H. congruence.
Qed.

Lemma py_max_cases (a b : Q) :
  (b <= a /\ py_max a b = a) \/ (a < b /\ py_max a b = b).
Proof.
  unfold py_max. destruct (Qle_bool b a) eqn:E.
  - left. split; [apply Qle_bool_iff; exact E | reflexivity].
  - right. split; [|reflexivity]. apply Qnot_le_lt. intros H.
    apply Qle_bool_iff in H. congruence.
Qed.

Lemma Qmin_cases (a b : Q) : (a <= b /\ Qmin a b == a) \/ (b < a /\ Qmin a b == b).
Proof.
  destruct (Qlt_le_dec b a) as [H|H].
  - right. split; [exact H|]. apply Q.min_r. lra.
  - left. split; [exact H|]. apply Q.min_l. exact H.
Qed.

Lemma Qmax_cases (a b : Q) : (b <= a /\ Qmax a b == a) \/ (a < b /\ Qmax a b == b).
Proof.
  destruct (Qlt_le_dec a b) as [H|H].
  - right. split; [exact H|]. apply Q.max_r. lra.
  - left. split; [exact H|]. apply Q.max_l. exact H.
Qed.

Lemma num_truthy_false (o : option Q) :
  Scoring.num_truthy o = false -> dict_get o 0 == 0.
Proof.
  destruct o as [x|]; cbn; [|reflexivity].
  destruct (Qeq_bool x 0) eqn:E; cbn; [|discriminate].
  intros _. apply Qeq_bool_iff. exact E.
Qed.

Lemma required_experience_eq (r : option Q) :
  (if Scoring.num_truthy r then dict_get r 0 else 0) == dict_get r 0.
Proof.
  destruct (Scoring.num_truthy r) eqn:E; [reflexivity|].
  symmetry. apply num_truthy_false. exact E.
Qed.

(** C5 as stated fails: a profile declaring 0 years is falsy in
    [if not employee.experience_years] and scores 0.3, while the first
    clause of the claim (0 >= 0 required years) asks for 0.8. *)
Lemma experience_score_zero_years :
  Scoring.calculate_experience_score (Some 0) (Some 0) = Some (3#10) /\
  ~ (3#10 == Qmin 1 ((8#10) + Qmin (3#10) ((5#100) * (0 - 0)))).
Proof.
  split; [reflexivity|].
  intros H. vm_compute in H. discriminate.
Qed.

(** C5 (amended): the experience score is 0.3 when the profile's
    experience is absent or zero; for positive experience [x] against
    the required [req] (absent counts as 0) it is
    [min(1.0, 0.8 + min(0.3, 0.05 * (x - req)))] when [x >= req] and
    [max(0.2, (x / req) * 0.7)] when [x < req]; 1 year against 5 gives
    0.2. *)
Theorem experience_score_spec :
  (forall r, Scoring.calculate_experience_score None r = Some (3#10)) /\
  (forall x r, x == 0 -> Scoring.calculate_experience_score (Some x) r = Some (3#10)) /\
  (forall x r, 0 < x -> dict_get r 0 <= x ->
     exists s, Scoring.calculate_experience_score (Some x) r = Some s /\
       s == Qmin 1 ((8#10) + Qmin (3#10) ((5#100) * (x - dict_get r 0)))) /\
  (forall x r, 0 < x -> x < dict_get r 0 ->
     exists s, Scoring.calculate_experience_score (Some x) r = Some s /\
       s == Qmax (2#10) ((x / dict_get r 0) * (7#10))) /\
  Scoring.calculate_experience_score (Some 1) (Some 5) = Some (2#10).
Proof.
  split; [|split; [|split; [|split]]].
  - intros r. reflexivity.
  - intros x r Hx. unfold Scoring.calculate_experience_score, Scoring.num_truthy.
    apply Qeq_bool_iff in Hx. rewrite Hx. reflexivity.
  - intros x r Hx Hle.
    unfold Scoring.calculate_experience_score.
    assert (Ht : Scoring.num_truthy (Some x) = true).
    { cbn. destruct (Qeq_bool x 0) eqn:E; [|reflexivity].
      apply Qeq_bool_iff in E. lra. }
    rewrite Ht. cbn [negb dict_get].
    pose proof (required_experience_eq r) as Hreq.
    set (req := if Scoring.num_truthy r then dict_get r 0 else 0) in *.
    assert (Hle' : Qle_bool req x = true) by (apply Qle_bool_iff; lra).
    rewrite Hle'.
    eexists; split; [reflexivity|].
    destruct (py_min_cases (3#10) ((x - req) * (5#100))) as [[H1 ->]|[H1 ->]];
    destruct (Qmin_cases (3#10) ((5#100) * (x - dict_get r 0))) as [[H2 E2]|[H2 E2]];
    rewrite E2; try lra;
    [destruct (py_min_cases 1 ((8#10) + (3#10))) as [[H3 ->]|[H3 ->]];
     destruct (Qmin_cases 1 ((8#10) + (3#10))) as [[H4 E4]|[H4 E4]];
     rewrite E4; lra
    |destruct (py_min_cases 1 ((8#10) + (x - req) * (5#100))) as [[H3 ->]|[H3 ->]];
     destruct (Qmin_cases 1 ((8#10) + (5#100) * (x - dict_get r 0))) as [[H4 E4]|[H4 E4]];
     rewrite E4; lra].
  - intros x r Hx Hlt.
    unfold Scoring.calculate_experience_score.
    assert (Ht : Scoring.num_truthy (Some x) = true).
    { cbn. destruct (Qeq_bool x 0) eqn:E; [|reflexivity].
      apply Qeq_bool_iff in E. lra. }
    rewrite Ht. cbn [negb dict_get].
    assert (Hr : Scoring.num_truthy r = true).
    { destruct (Scoring.num_truthy r) eqn:E; [reflexivity|].
      apply num_truthy_false in E. lra. }
    rewrite Hr.
    assert (Hle' : Qle_bool (dict_get r 0) x = false).
    { destruct (Qle_bool (dict_get r 0) x) eqn:E; [|reflexivity].
      apply Qle_bool_iff in E. lra. }
    rewrite Hle'.
    assert (Hz : Qeq_bool (dict_get r 0) 0 = false).
    { destruct (Qeq_bool (dict_get r 0) 0) eqn:E; [|reflexivity].
      apply Qeq_bool_iff in E. lra. }
    rewrite Hz.
    eexists; split; [reflexivity|].
    destruct (py_max_cases (2#10) (x / dict_get r 0 * (7#10))) as [[H1 ->]|[H1 ->]];
    destruct (Qmax_cases (2#10) (x / dict_get r 0 * (7#10))) as [[H2 E2]|[H2 E2]];
    rewrite E2; lra.
  - reflexivity.
Qed.

(** ** C9 *)

Lemma level_scores_default_pos (r : string) :
  (1 <= dict_get (MatchingService.level_scores r) 1)%Z.
Proof.
  unfold MatchingService.level_scores.
  repeat match goal with |- context [String.eqb ?a ?b] =>
    destruct (String.eqb a b) end; cbn; lia.
Qed.

(** C9 as stated fails: the scoring functions return a score for
    malformed input instead of rejecting it. A current level outside
    the scale scores 0.0, a required level outside it is read as
    novice, a requirement set of zero weight scores 0.0, and a weight
    of 3 is used as given. *)
Lemma scoring_inputs_not_validated :
  MatchingService.calculate_skill_match_score (Some "guru") "advanced" == 0 /\
  MatchingService.calculate_skill_match_score (Some "novice") "guru" == 1 /\
  Scoring.calculate_hard_skills_score
    [Scoring.mkSkillMatch "novice" (Some "novice") 1 false 0 "none"] == 0 /\
  Scoring.calculate_hard_skills_score
    [Scoring.mkSkillMatch "novice" (Some "novice") 1 false 3 "none";
     Scoring.mkSkillMatch "expert" None 0 false 1 "medium"] == 3#4.
Proof. vm_compute. repeat split; reflexivity. Qed.

(** C9 (amended): no input is rejected. A current level outside the
    scale is read as ordinal 0 and scores 0.0, a required level outside
    it is read as ordinal 1 (as novice), a requirement set whose
    effective weights sum to zero or less scores 0.0, and otherwise the
    weights, whatever their range, give the weighted average. *)
Theorem scoring_inputs_coerced :
  (forall s r, MatchingService.level_scores s = None ->
     MatchingService.calculate_skill_match_score (Some s) r == 0) /\
  (forall c r, MatchingService.level_scores r = None ->
     MatchingService.calculate_skill_match_score (Some c) r =
     MatchingService.calculate_skill_match_score (Some c) "novice") /\
  (forall ms, total_effective_weight ms <= 0 ->
     Scoring.calculate_hard_skills_score ms == 0) /\
  (forall ms, 0 < total_effective_weight ms ->
     Scoring.calculate_hard_skills_score ms ==
     fst (fold_left Scoring.hard_skills_step ms (0, 0)) / total_effective_weight ms).
Proof.
  split; [|split; [|split]].
  - intros s r Hs. unfold MatchingService.calculate_skill_match_score.
    destruct (str_truthy (Some s)); cbn [negb]; [|reflexivity].
    cbn [dict_get]. rewrite Hs. cbn [dict_get].
    pose proof (level_scores_default_pos r) as Hr.
    destruct (Z.leb_spec (dict_get (MatchingService.level_scores r) 1%Z) 0%Z); [lia|].
    unfold Qdiv. apply Qmult_0_l.
  - intros c r Hr. unfold MatchingService.calculate_skill_match_score.
    rewrite Hr. reflexivity.
  - intros ms H. unfold Scoring.calculate_hard_skills_score.
    unfold total_effective_weight in H.
    destruct ms as [|m ms]; [reflexivity|].
    destruct (fold_left Scoring.hard_skills_step (m :: ms) (0, 0)) as [tws tw].
    cbn in H. destruct (Qlt_le_dec 0 tw); [lra|reflexivity].
  - intros ms H. unfold Scoring.calculate_hard_skills_score.
    unfold total_effective_weight in *.
    destruct ms as [|m ms]; [cbn in H; lra|].
    destruct (fold_left Scoring.hard_skills_step (m :: ms) (0, 0)) as [tws tw].
    cbn in *. destruct (Qlt_le_dec 0 tw); [reflexivity|lra].
Qed.

(** ** C6 *)

Lemma same_name_lower sql_lower py_lower (n1 n2 : string) (st : SkillStore.Store) :
  py_lower n1 = py_lower n2 ->
  SkillStore.same_name sql_lower py_lower n1 st =
  SkillStore.same_name sql_lower py_lower n2 st.
Proof. intros H. unfold SkillStore.same_name. rewrite H. reflexivity. Qed.

Lemma same_name_app sql_lower py_lower (n : string) (st1 st2 : SkillStore.Store) :
  SkillStore.same_name sql_lower py_lower n (st1 ++ st2)%list =
  (SkillStore.same_name sql_lower py_lower n st1 ++
   SkillStore.same_name sql_lower py_lower n st2)%list.
Proof. unfold SkillStore.same_name. apply filter_app. Qed.


(** ** C7 *)

Section SortedLemmas.
Variable A : Type.

Lemma Sorted_firstn (R : A -> A -> Prop) (n : nat) (l : list A) :
  Sorted.Sorted R l -> Sorted.Sorted R (firstn n l).
Proof.
  revert l. induction n as [|n IH]; intros l Hs; [constructor|].
  destruct l as [|x l]; [constructor|]. cbn.
  apply Sorted.Sorted_inv in Hs as [Hs Hd].
  constructor; [apply IH; exact Hs|].
  destruct n; [constructor|]. destruct l; cbn; [constructor|].
  inversion Hd; subst. constructor. assumption.
Qed.

Lemma Sorted_map {B} (R : A -> A -> Prop) (R' : B -> B -> Prop) (f : A -> B)
    (l : list A) :
  (forall a b, R a b -> R' (f a) (f b)) ->
  Sorted.Sorted R l -> Sorted.Sorted R' (map f l).
Proof.
  intros HR Hs. induction Hs as [|x l Hs IH Hd]; cbn; constructor; [exact IH|].
  destruct Hd; cbn; constructor. apply HR. assumption.
Qed.

Lemma In_firstn_incl (n : nat) (l : list A) (x : A) :
  In x (firstn n l) -> In x l.
Proof.
  intros H. rewrite <- (firstn_skipn n l). apply in_or_app. left. exact H.
Qed.

End SortedLemmas.

Arguments Sorted_firstn {A}.
Arguments Sorted_map {A B}.
Arguments In_firstn_incl {A}.

Lemma insert_by_distance_In d x l y :
  In y (Search.insert_by_distance d x l) -> y = x \/ In y l.
Proof.
  induction l as [|z l IH]; cbn; [intros [<-|[]]; left; reflexivity|].
  destruct (Qle_bool (d x) (d z)).
  - intros [<-|H]; [left; reflexivity|right; exact H].
  - intros [<-|H]; [right; left; reflexivity|].
    destruct (IH H) as [->|H']; [left; reflexivity|right; right; exact H'].
Qed.

Lemma order_by_distance_In d l y :
  In y (Search.order_by_distance d l) -> In y l.
Proof.
  induction l as [|x l IH]; cbn; [intros []|].
  intros H. destruct (insert_by_distance_In _ _ _ _ H) as [->|H'];
    [left; reflexivity|right; apply IH; exact H'].
Qed.

Lemma insert_by_distance_HdRel d x y l :
  Sorted.HdRel (by_distance d) y l -> d y <= d x ->
  Sorted.HdRel (by_distance d) y (Search.insert_by_distance d x l).
Proof.
  intros Hd Hyx. destruct l as [|z l]; cbn.
  - constructor. exact Hyx.
  - destruct (Qle_bool (d x) (d z)); constructor; [exact Hyx|].
    inversion Hd; assumption.
Qed.

Lemma insert_by_distance_sorted d x l :
  Sorted.Sorted (by_distance d) l ->
  Sorted.Sorted (by_distance d) (Search.insert_by_distance d x l).
Proof.
  induction l as [|z l IH]; intros Hs; cbn.
  - constructor; constructor.
  - destruct (Qle_bool (d x) (d z)) eqn:E.
    + constructor; [exact Hs|]. constructor. apply Qle_bool_iff. exact E.
    + apply Sorted.Sorted_inv in Hs as [Hs Hd].
      constructor; [apply IH; exact Hs|].
      apply insert_by_distance_HdRel; [exact Hd|].
      apply Qlt_le_weak, Qnot_le_lt. intros H. apply Qle_bool_iff in H. congruence.
Qed.

Lemma order_by_distance_sorted d l :
  Sorted.Sorted (by_distance d) (Search.order_by_distance d l).
Proof.
  induction l as [|x l IH]; cbn; [constructor|].
  apply insert_by_distance_sorted. exact IH.
Qed.

(** Every returned row passed the [WHERE] clause. *)
Lemma search_result_qualifies get_embedding cosine_distance query_ok st query
    limit thr cats x :
  In x (Search.search_skills_semantic get_embedding cosine_distance query_ok st
          query limit thr cats) ->
  exists n qe, get_embedding query = Some qe /\ In n st /\
    SkillStore.sk_is_active n = true /\
    Search.ssr_skill_id x = SkillStore.sk_id n /\
    Search.ssr_similarity x = 1 - cosine_distance (SkillStore.sk_embedding n) qe /\
    thr <= Search.ssr_similarity x.
Proof.
  unfold Search.search_skills_semantic.
  destruct (get_embedding query) as [qe|]; [|intros []].
  destruct (negb query_ok || (limit <? 0)%Z); [intros []|].
  match goal with |- context [if forallb ?p ?rows then _ else _] =>
    destruct (forallb p rows) end; [|intros []].
  intros Hx. apply in_map_iff in Hx as [n [<- Hn]].
  apply In_firstn_incl, order_by_distance_In, filter_In in Hn as [Hn Hp].
  apply andb_prop in Hp as [Hp Hthr]. apply andb_prop in Hp as [Hact _].
  exists n, qe. cbn. repeat split; try assumption.
  apply Qle_bool_iff. exact Hthr.
Qed.

(** C7: [search_skills_semantic] returns only active skills whose
    similarity to the query embedding reaches the threshold, in
    descending order of similarity, at most [limit] of them; it returns
    the empty list when the embedding backend or the query fails and
    when no active skill reaches the threshold. *)
Theorem search_skills_semantic_spec :
  forall get_embedding cosine_distance query_ok st query limit thr cats,
    let res := Search.search_skills_semantic get_embedding cosine_distance
                 query_ok st query limit thr cats in
    (forall x, In x res ->
       exists n qe, get_embedding query = Some qe /\ In n st /\
         SkillStore.sk_is_active n = true /\
         Search.ssr_skill_id x = SkillStore.sk_id n /\
         Search.ssr_similarity x = 1 - cosine_distance (SkillStore.sk_embedding n) qe /\
         thr <= Search.ssr_similarity x) /\
    Sorted.Sorted (fun a b => Search.ssr_similarity b <= Search.ssr_similarity a) res /\
    (List.length res <= Z.to_nat limit)%nat /\
    (get_embedding query = None -> res = []) /\
    (query_ok = false -> res = []) /\
    ((forall n qe, get_embedding query = Some qe -> In n st ->
        SkillStore.sk_is_active n = true ->
        thr <= 1 - cosine_distance (SkillStore.sk_embedding n) qe -> False) ->
     res = []).
Proof.
  intros get_embedding cosine_distance query_ok st query limit thr cats res.
  split; [|split; [|split; [|split; [|split]]]].
  - apply search_result_qualifies.
  - unfold res, Search.search_skills_semantic.
    destruct (get_embedding query) as [qe|]; [|constructor].
    destruct (negb query_ok || (limit <? 0)%Z); [constructor|].
    match goal with |- context [if forallb ?p ?rows then _ else _] =>
      destruct (forallb p rows) end; [|constructor].
    eapply Sorted_map; [|apply Sorted_firstn, order_by_distance_sorted].
    intros a b Hab. unfold by_distance in Hab. cbn. lra.
  - unfold res, Search.search_skills_semantic.
    destruct (get_embedding query) as [qe|]; [|cbn; lia].
    destruct (negb query_ok || (limit <? 0)%Z); [cbn; lia|].
    match goal with |- context [if forallb ?p ?rows then _ else _] =>
      destruct (forallb p rows) end; [|cbn; lia].
    rewrite length_map. apply firstn_le_length.
  - intros H. unfold res, Search.search_skills_semantic. rewrite H. reflexivity.
  - intros H. unfold res, Search.search_skills_semantic. rewrite H.
    destruct (get_embedding query); reflexivity.
  - intros Hnone. destruct res as [|x l] eqn:E; [reflexivity|].
    exfalso.
    assert (Hx : In x res) by (rewrite E; left; reflexivity).
    destruct (search_result_qualifies _ _ _ _ _ _ _ _ _ Hx)
      as [n [qe [Hq [Hn [Ha [_ [Hs Ht]]]]]]].
    apply (Hnone n qe Hq Hn Ha). rewrite <- Hs. exact Ht.
Qed.

(** ** C8 *)

Lemma insert_desc_HdRel x y l :
  Sorted.HdRel score_desc y l -> snd x <= snd y ->
  Sorted.HdRel score_desc y (Ranking.insert_desc x l).
Proof.
  intros Hd Hxy. destruct l as [|z l]; cbn.
  - constructor. exact Hxy.
  - destruct (Qle_bool (snd z) (snd x)); constructor; [exact Hxy|].
    inversion Hd; assumption.
Qed.

Lemma insert_desc_sorted x l :
  Sorted.Sorted score_desc l -> Sorted.Sorted score_desc (Ranking.insert_desc x l).
Proof.
  induction l as [|z l IH]; intros Hs; cbn.
  - constructor; constructor.
  - destruct (Qle_bool (snd z) (snd x)) eqn:E.
    + constructor; [exact Hs|]. constructor. apply Qle_bool_iff. exact E.
    + apply Sorted.Sorted_inv in Hs as [Hs Hd].
      constructor; [apply IH; exact Hs|].
      apply insert_desc_HdRel; [exact Hd|].
      apply Qlt_le_weak, Qnot_le_lt. intros H. apply Qle_bool_iff in H. congruence.
Qed.

Lemma sort_desc_sorted l : Sorted.Sorted score_desc (Ranking.sort_desc l).
Proof.
  induction l as [|x l IH]; cbn; [constructor|].
  apply insert_desc_sorted. exact IH.
Qed.

(** Stability: inserting [x] in front of the elements that follow it in
    the input keeps it before every element of equal score. *)
Lemma insert_desc_same_score q x l :
  filter (same_score q) (Ranking.insert_desc x l) = filter (same_score q) (x :: l).
Proof.
  induction l as [|y l IH]; cbn; [reflexivity|].
  destruct (Qle_bool (snd y) (snd x)) eqn:E; [reflexivity|].
  assert (Hlt : snd x < snd y).
  { apply Qnot_le_lt. intros H. apply Qle_bool_iff in H. congruence. }
  cbn. rewrite IH. cbn.
  destruct (same_score q x) eqn:Ex; destruct (same_score q y) eqn:Ey;
    try reflexivity.
  unfold same_score in Ex, Ey. apply Qeq_bool_iff in Ex, Ey. lra.
Qed.

Lemma sort_desc_same_score q l :
  filter (same_score q) (Ranking.sort_desc l) = filter (same_score q) l.
Proof.
  induction l as [|x l IH]; cbn; [reflexivity|].
  rewrite insert_desc_same_score. cbn. rewrite IH. reflexivity.
Qed.

Lemma py_prefix_firstn {A} (l : list A) (n : Z) :
  exists k, Ranking.py_prefix l n = firstn k l.
Proof.
  unfold Ranking.py_prefix. destruct (0 <=? n)%Z; eexists; reflexivity.
Qed.

Lemma assign_ranks_pairs i l : map candidate_pair (Ranking.assign_ranks i l) = l.
Proof.
  revert i. induction l as [|[e t] l IH]; intros i; cbn; [reflexivity|].
  rewrite IH. reflexivity.
Qed.

Lemma assign_ranks_ranks i l :
  map Ranking.cr_rank (Ranking.assign_ranks i l) = seq (S i) (List.length l).
Proof.
  revert i. induction l as [|[e t] l IH]; intros i; cbn; [reflexivity|].
  rewrite IH. reflexivity.
Qed.

Lemma assign_ranks_length i l :
  List.length (Ranking.assign_ranks i l) = List.length l.
Proof.
  revert i. induction l as [|[e t] l IH]; intros i; cbn; [reflexivity|].
  rewrite IH. reflexivity.
Qed.

(** C8 as stated fails: two profiles with the same total score are
    ranked in the order the store returned them. The same two profiles
    returned in the two possible orders give two different rankings, so
    no identity-based tie-break is applied. *)
Lemma ranking_ties_follow_arrival_order :
  let f := fun _ : Z => Some (1#2) in
  map Ranking.cr_employee_id
    (Ranking.find_candidates_for_vacancy f [1%Z; 2%Z] 20 (3#10) true) = [1%Z; 2%Z] /\
  map Ranking.cr_employee_id
    (Ranking.find_candidates_for_vacancy f [2%Z; 1%Z] 20 (3#10) true) = [2%Z; 1%Z].
Proof. vm_compute. split; reflexivity. Qed.

Lemma insert_desc_perm x l : Permutation (Ranking.insert_desc x l) (x :: l).
Proof.
  induction l as [|y l IH]; cbn; [reflexivity|].
  destruct (Qle_bool (snd y) (snd x)); [reflexivity|].
  rewrite IH. apply perm_swap.
Qed.

Lemma sort_desc_perm l : Permutation (Ranking.sort_desc l) l.
Proof.
  induction l as [|x l IH]; cbn; [reflexivity|].
  rewrite insert_desc_perm, IH. reflexivity.
Qed.

Lemma same_score_self c : same_score (snd c) c = true.
Proof. unfold same_score. apply Qeq_bool_iff. reflexivity. Qed.

Lemma sorted_head_bound x l y :
  Sorted.Sorted score_desc (x :: l) -> In y l -> snd y <= snd x.
Proof.
  intros Hs Hy.
  apply Sorted.Sorted_StronglySorted in Hs;
    [|intros a b c Hab Hbc; unfold score_desc in *; lra].
  apply Sorted.StronglySorted_inv in Hs as [_ Hf].
  rewrite Forall_forall in Hf. exact (Hf y Hy).
Qed.

Lemma filter_cons_in q x l l' :
  filter (same_score q) l = x :: l' -> In x l /\ same_score q x = true.
Proof.
  intros H. assert (Hx : In x (filter (same_score q) l)) by (rewrite H; left; reflexivity).
  apply filter_In in Hx. exact Hx.
Qed.

(** A list in descending score is determined by the order of each
    score's elements. *)
Lemma sorted_same_classes_eq l1 l2 :
  Sorted.Sorted score_desc l1 -> Sorted.Sorted score_desc l2 ->
  (forall q, filter (same_score q) l1 = filter (same_score q) l2) -> l1 = l2.
Proof.
  revert l2. induction l1 as [|x l1 IH]; intros l2 S1 S2 H.
  - destruct l2 as [|y l2]; [reflexivity|].
    specialize (H (snd y)). cbn in H. rewrite same_score_self in H. discriminate.
  - destruct l2 as [|y l2].
    + specialize (H (snd x)). cbn in H. rewrite same_score_self in H. discriminate.
    + assert (Exy : x = y).
      { pose proof (H (snd x)) as Hx. cbn in Hx. rewrite same_score_self in Hx.
        destruct (same_score (snd x) y) eqn:E1; [injection Hx as Hx _; exact Hx|].
        symmetry in Hx. apply filter_cons_in in Hx as [Hin _].
        pose proof (sorted_head_bound _ _ _ S2 Hin) as B1.
        pose proof (H (snd y)) as Hy. cbn in Hy. rewrite same_score_self in Hy.
        destruct (same_score (snd y) x) eqn:E2.
        - unfold same_score in E1, E2. apply Qeq_bool_iff in E2.
          apply Qeq_bool_neq in E1. exfalso. apply E1. symmetry. exact E2.
        - apply filter_cons_in in Hy as [Hin' _].
          pose proof (sorted_head_bound _ _ _ S1 Hin') as B2.
          unfold same_score in E1. apply Qeq_bool_neq in E1.
          exfalso. apply E1. lra. }
      subst y. f_equal.
      apply IH.
      * apply Sorted.Sorted_inv in S1. apply S1.
      * apply Sorted.Sorted_inv in S2. apply S2.
      * intros q. specialize (H q). cbn in H.
        destruct (same_score q x); [injection H as H|]; exact H.
Qed.

(** C8 (amended): [find_candidates_for_vacancy] assigns ranks 1..N to a
    prefix, cut by [limit], of the kept candidates sorted by descending
    total score, where candidates of equal total score keep the order in
    which the store returned the profiles (Python's sort is stable; there
    is no identity-based secondary key). Another store order gives the
    same ranking whenever it keeps, for every score, the kept candidates
    of that score in the same order, in particular when it is the same
    order; [ranking_ties_follow_arrival_order] shows that tied candidates
    returned in another order are ranked differently. *)
Theorem find_candidates_stable_order :
  forall f employees limit min_score include_stretch,
    let cands := Ranking.collect_candidates f min_score include_stretch employees in
    let out := Ranking.find_candidates_for_vacancy f employees limit min_score
                 include_stretch in
    map Ranking.cr_rank out = seq 1 (List.length out) /\
    (exists sorted,
       Permutation sorted cands /\
       Sorted.Sorted score_desc sorted /\
       (forall q, filter (same_score q) sorted = filter (same_score q) cands) /\
       map candidate_pair out = Ranking.py_prefix sorted limit) /\
    (forall employees',
       (forall q, filter (same_score q)
                    (Ranking.collect_candidates f min_score include_stretch employees') =
                  filter (same_score q) cands) ->
       Ranking.find_candidates_for_vacancy f employees' limit min_score include_stretch
       = out).
Proof.
  intros f employees limit min_score include_stretch cands out.
  split; [|split].
  - unfold out, Ranking.find_candidates_for_vacancy.
    rewrite assign_ranks_ranks, assign_ranks_length. reflexivity.
  - exists (Ranking.sort_desc cands).
    split; [apply sort_desc_perm|]. split; [apply sort_desc_sorted|].
    split; [intros q; apply sort_desc_same_score|].
    unfold out, Ranking.find_candidates_for_vacancy. fold cands.
    apply assign_ranks_pairs.
  - intros employees' Hq. unfold out, Ranking.find_candidates_for_vacancy. fold cands.
    f_equal. f_equal. apply sorted_same_classes_eq; try apply sort_desc_sorted.
    intros q. rewrite !sort_desc_same_score. apply Hq.
Qed.

(** * Instances of the properties on concrete inputs *)

(** C1 at novice against advanced: the ratio 1/4. *)
Lemma skill_match_score_spec_witness :
  MatchingService.calculate_skill_match_score (Some "novice") "advanced" == 1#4.
Proof.
  destruct (skill_match_score_spec NOVICE ADVANCED) as [_ [H _]].
  destruct (H ltac:(reflexivity)) as [E _].
  rewrite E. reflexivity.
Defined.

(** C2 with a critical requirement: beginner for intermediate (gap 1)
    ranks no higher than novice for expert (gap 4). *)
Lemma sg_gap_severity_spec_witness :
  (severity_rank (SkillGraphService.calculate_gap_severity (Some BEGINNER) INTERMEDIATE
                    (mkRequirement (Some "expert") None (Some true)))
   <= severity_rank (SkillGraphService.calculate_gap_severity (Some NOVICE) EXPERT
                    (mkRequirement (Some "expert") None (Some true))))%nat.
Proof.
  destruct (sg_gap_severity_spec (mkRequirement (Some "expert") None (Some true)) EXPERT)
    as [_ [_ [_ [_ Hmono]]]].
  apply Hmono. unfold ordinal_gap. cbn. lia.
Defined.

(** C3 on the components 0.8, 0.7, 0.6, 0.9: a total in [0,1]. *)
Lemma total_score_spec_witness :
  0 <= Scoring.total_score (8#10) (7#10) (6#10) (9#10) <= 1.
Proof.
  destruct total_score_spec as [_ [_ [_ Hb]]].
  apply Hb; split; lra.
Defined.

(** C4 on the total 0.745: partial. *)
Lemma determine_match_type_spec_witness :
  Scoring.determine_match_type (745#1000) = Scoring.PARTIAL.
Proof.
  destruct determine_match_type_spec as [_ [Hp _]].
  apply Hp; lra.
Defined.

(** C5 (amended) on 3 years against 1 required year. *)
Lemma experience_score_spec_witness :
  exists s, Scoring.calculate_experience_score (Some 3) (Some 1) = Some s /\
    s == Qmin 1 ((8#10) + Qmin (3#10) ((5#100) * (3 - 1))).
Proof.
  destruct experience_score_spec as [_ [_ [Hge _]]].
  apply (Hge 3 (Some 1)); cbn; lra.
Defined.

(** C9 (amended) on the current level "guru". *)
Lemma scoring_inputs_coerced_witness :
  MatchingService.calculate_skill_match_score (Some "guru") "expert" == 0.
Proof.
  destruct scoring_inputs_coerced as [H _].
  apply H. reflexivity.
Defined.


(** C7 when the embedding backend fails. *)
Lemma search_skills_semantic_spec_witness :
  Search.search_skills_semantic (fun _ => None) (fun _ _ => 0) true [] "python"
    10 (7#10) [] = [].
Proof.
  destruct (search_skills_semantic_spec (fun _ => None) (fun _ _ => 0) true []
              "python" 10 (7#10) []) as [_ [_ [_ [H _]]]].
  apply H. reflexivity.
Defined.

(** * Properties of the services *)
Module ServiceProperties.
Import Scoring Ranking MatchAnalysis SkillGraphOps.

Lemma Qle_bool_false (a b : Q) : Qle_bool a b = false -> b < a.
Proof. intros E. apply Qnot_le_lt. intros H. apply Qle_bool_iff in H. congruence. Qed.

Lemma Qdiv_unit (a b : Q) : 0 <= a -> a <= b -> 0 < b -> 0 <= a / b <= 1.
Proof.
  intros Ha Hab Hb. split.
  - apply Qle_shift_div_l; [exact Hb|]. rewrite Qmult_0_l. exact Ha.
  - apply Qle_shift_div_r; [exact Hb|]. rewrite Qmult_1_l. exact Hab.
Qed.

Lemma level_scores_range (s : string) (z : Z) :
  MatchingService.level_scores s = Some z -> (1 <= z <= 5)%Z.
Proof.
  unfold MatchingService.level_scores.
  repeat match goal with |- context [String.eqb ?a ?b] => destruct (String.eqb a b) end;
  intros H; try discriminate; injection H as <-; lia.
Qed.

Lemma skill_match_score_bounds (current_level : option string) (required_level : string) :
  0 <= MatchingService.calculate_skill_match_score current_level required_level <= 1.
Proof.
  unfold MatchingService.calculate_skill_match_score.
  destruct (negb (str_truthy current_level)); [lra|].
  set (c := dict_get (MatchingService.level_scores (dict_get current_level "")) 0%Z).
  set (r := dict_get (MatchingService.level_scores required_level) 1%Z).
  assert (Hc : (0 <= c)%Z).
  { unfold c. destruct (MatchingService.level_scores _) eqn:E; cbn; [|lia].
    apply level_scores_range in E. lia. }
  assert (Hr : (1 <= r)%Z) by apply level_scores_default_pos.
  destruct (r <=? c)%Z eqn:E; [lra|].
  apply Z.leb_gt in E.
  apply Qdiv_unit.
  - change 0 with (inject_Z 0). rewrite <- Zle_Qle. lia.
  - rewrite <- Zle_Qle. lia.
  - change 0 with (inject_Z 0). rewrite <- Zlt_Qlt. lia.
Qed.

Lemma hard_skills_fold_inv (ms : list Scoring.SkillMatch) (s w : Q) :
  (forall m, In m ms -> 0 <= Scoring.sm_match_score m <= 1 /\ 0 <= Scoring.sm_weight m) ->
  0 <= s <= w ->
  0 <= fst (fold_left Scoring.hard_skills_step ms (s, w)) <= snd (fold_left Scoring.hard_skills_step ms (s, w)).
Proof.
  revert s w. induction ms as [|m ms IH]; intros s w Hms Hsw; cbn; [exact Hsw|].
  apply IH; [intros x Hx; apply Hms; right; exact Hx|].
  destruct (Hms m (or_introl eq_refl)) as [[H0 H1] Hw].
  cbn. set (e := Scoring.sm_weight m * (if Scoring.sm_is_critical m then 2 else 1)).
  assert (He : 0 <= e).
  { unfold e. destruct (Scoring.sm_is_critical m); nra. }
  split; nra.
Qed.

Lemma hard_skills_score_bounds (skill_matches : list Scoring.SkillMatch) :
  (forall m, In m skill_matches ->
     0 <= Scoring.sm_match_score m <= 1 /\ 0 <= Scoring.sm_weight m) ->
  0 <= Scoring.calculate_hard_skills_score skill_matches <= 1.
Proof.
  intros Hms. unfold Scoring.calculate_hard_skills_score.
  destruct skill_matches as [|m0 ms0]; [lra|].
  pose proof (hard_skills_fold_inv (m0 :: ms0) 0 0 Hms ltac:(lra)) as Hinv.
  destruct (fold_left Scoring.hard_skills_step (m0 :: ms0) (0, 0)) as [s w].
  cbn in Hinv. destruct (Qlt_le_dec 0 w) as [Hw|Hw]; [|lra].
  apply Qdiv_unit; lra.
Qed.

Lemma py_min_fold_range (fs : list Q) (b : Q) :
  (forall f, In f fs -> 0 <= f) -> 7#10 <= b <= 1 ->
  7#10 <= fold_left (fun base_score factor => py_min 1 (base_score + factor)) fs b <= 1.
Proof.
  revert b. induction fs as [|f fs IH]; intros b Hf Hb; cbn; [exact Hb|].
  apply IH; [intros x Hx; apply Hf; right; exact Hx|].
  pose proof (Hf f (or_introl eq_refl)).
  destruct (py_min_cases 1 (b + f)) as [[H1 ->]|[H1 ->]]; lra.
Qed.

Lemma soft_skills_score_bounds (employee : Heuristics.Employee) :
  7#10 <= Heuristics.calculate_soft_skills_score employee <= 1.
Proof.
  unfold Heuristics.calculate_soft_skills_score.
  apply py_min_fold_range; [|lra].
  intros f Hf. repeat (apply in_app_or in Hf; destruct Hf as [Hf|Hf]);
  repeat match type of Hf with context [if ?b then _ else _] => destruct b end;
  cbn in Hf; repeat destruct Hf as [<-|Hf]; try lra; contradiction.
Qed.

Lemma culture_fit_score_bounds (employee : Heuristics.Employee) (vacancy : Heuristics.Vacancy) :
  75#100 <= Heuristics.calculate_culture_fit_score employee vacancy <= 1.
Proof.
  unfold Heuristics.calculate_culture_fit_score.
  destruct (Heuristics.opt_str_eqb _ _), (Heuristics.opt_str_eqb _ _),
    (Heuristics.emp_mobility_ready employee); vm_compute; split; discriminate.
Qed.

Lemma experience_score_bounds (experience_years min_experience_years : option Q) :
  (forall y, experience_years = Some y -> 0 <= y) ->
  (forall m, min_experience_years = Some m -> 0 <= m) ->
  exists e, Scoring.calculate_experience_score experience_years min_experience_years = Some e
            /\ 2#10 <= e <= 1.
Proof.
  intros Hy Hm. unfold Scoring.calculate_experience_score.
  destruct (Scoring.num_truthy experience_years) eqn:Ey; cbn.
  2: { eexists; split; [reflexivity|lra]. }
  destruct experience_years as [y|]; [|discriminate].
  pose proof (Hy y eq_refl) as Hy0. cbn in Ey |- *.
  assert (Hy1 : ~ y == 0).
  { intros E. apply Qeq_bool_iff in E. rewrite E in Ey. discriminate. }
  set (r := if Scoring.num_truthy min_experience_years then dict_get min_experience_years 0 else 0).
  assert (Hr : 0 <= r).
  { unfold r. destruct (Scoring.num_truthy _); [|lra].
    destruct min_experience_years as [m|]; cbn; [apply Hm; reflexivity|lra]. }
  destruct (Qle_bool r y) eqn:E.
  - apply Qle_bool_iff in E. eexists; split; [reflexivity|].
    destruct (py_min_cases (3#10) ((y - r) * (5#100))) as [[H1 ->]|[H1 ->]];
    match goal with |- context [py_min 1 ?x] =>
      destruct (py_min_cases 1 x) as [[H2 ->]|[H2 ->]] end; nra.
  - assert (Hlt : y < r) by (apply Qnot_le_lt; intros H; apply Qle_bool_iff in H; congruence).
    destruct (Qeq_bool r 0) eqn:E0.
    + apply Qeq_bool_iff in E0. lra.
    + eexists; split; [reflexivity|].
      assert (Hd : y / r <= 1).
      { apply Qle_shift_div_r; lra. }
      assert (Hd0 : 0 <= y / r).
      { apply Qle_shift_div_l; lra. }
      destruct (py_max_cases (2#10) (y / r * (7#10))) as [[H1 ->]|[H1 ->]]; nra.
Qed.




Lemma analyze_loop_entries parse_uuid skill_name_of employee_skills reqs ms gs :
  MatchAnalysis.analyze_loop parse_uuid skill_name_of employee_skills reqs = Some (ms, gs) ->
  forall x, In x ms -> exists sid r, In (sid, r) reqs /\
    snd x = Scoring.analyze_skill_entry (Heuristics.assoc_get sid employee_skills) r.
Proof.
  revert ms gs. induction reqs as [|[sid r] reqs IH]; intros ms gs H x Hx; cbn in H.
  - injection H as <- <-. contradiction.
  - destruct (parse_uuid sid) as [z|].
    2: { destruct (IH _ _ H x Hx) as (s' & r' & Hin & E). exists s', r'. split; [right|]; assumption. }
    destruct (skill_name_of z) as [name|].
    2: { destruct (IH _ _ H x Hx) as (s' & r' & Hin & E). exists s', r'. split; [right|]; assumption. }
    match type of H with
    | match ?g with _ => _ end = _ => destruct g as [g'|] eqn:Eg
    end.
    all: destruct (MatchAnalysis.analyze_loop parse_uuid skill_name_of employee_skills reqs)
           as [[ms' gs']|] eqn:Erest; try discriminate.
    injection H as <- <-. destruct Hx as [<-|Hx].
    + exists sid, r. split; [left; reflexivity|reflexivity].
    + destruct (IH _ _ eq_refl x Hx) as (s' & r' & Hin & E). exists s', r'.
      split; [right|]; assumption.
Qed.

Lemma analyze_skill_entry_bounds c r :
  (forall w, req_weight r = Some w -> 0 <= w) ->
  0 <= Scoring.sm_match_score (Scoring.analyze_skill_entry c r) <= 1 /\
  0 <= Scoring.sm_weight (Scoring.analyze_skill_entry c r).
Proof.
  intros Hw. unfold Scoring.analyze_skill_entry. cbn. split.
  - destruct (Scoring.entry_truthy c); [apply skill_match_score_bounds|lra].
  - destruct (req_weight r) as [w|]; cbn; [apply Hw; reflexivity|lra].
Qed.

(** When the employee and the vacancy are found, experience values and
    requirement weights are non-negative, [match_employee_to_vacancy] returns
    a result whose hard score is in [0, 1], soft score in [0.7, 1],
    experience score in [0.2, 1], culture fit in [0.75, 1] and total score
    in [0.3025, 1]: above the default [min_score] 0.3. *)
Theorem match_total_range parse_uuid skill_name_of get_employee get_vacancy explain
    employee_id vacancy_id save_result now st employee vacancy :
  get_employee employee_id = Some employee ->
  get_vacancy vacancy_id = Some vacancy ->
  (forall y, Heuristics.emp_experience_years employee = Some y -> 0 <= y) ->
  (forall m, Heuristics.vac_min_experience_years vacancy = Some m -> 0 <= m) ->
  (forall sid r w, In (sid, r) (MatchAnalysis.required_skills_of vacancy) ->
     req_weight r = Some w -> 0 <= w) ->
  exists result st',
    MatchPipeline.match_employee_to_vacancy parse_uuid skill_name_of get_employee get_vacancy
      explain employee_id vacancy_id save_result now st = (Some result, st') /\
    0 <= MatchPipeline.res_hard_skills_score result <= 1 /\
    7#10 <= MatchPipeline.res_soft_skills_score result <= 1 /\
    2#10 <= MatchPipeline.res_experience_score result <= 1 /\
    75#100 <= MatchPipeline.res_culture_fit_score result <= 1 /\
    121#400 <= MatchPipeline.res_total_score result <= 1.
Proof.
  intros He Hv Hy Hm Hw. unfold MatchPipeline.match_employee_to_vacancy.
  rewrite He, Hv.
  destruct (MatchAnalysis.analyze_skills_match parse_uuid skill_name_of employee vacancy)
    as [ms gs] eqn:Ea.
  assert (Hms : forall m, In m (map snd ms) ->
            0 <= Scoring.sm_match_score m <= 1 /\ 0 <= Scoring.sm_weight m).
  { intros m Hin. apply in_map_iff in Hin. destruct Hin as (x & <- & Hx).
    unfold MatchAnalysis.analyze_skills_match in Ea.
    destruct (MatchAnalysis.analyze_loop _ _ _ _) as [[ms' gs']|] eqn:El.
    - injection Ea as -> ->.
      destruct (analyze_loop_entries _ _ _ _ _ _ El x Hx) as (sid & r & Hin & ->).
      apply analyze_skill_entry_bounds. intros w. apply (Hw sid r w Hin).
    - injection Ea as <- <-. contradiction. }
  pose proof (hard_skills_score_bounds _ Hms) as Hh.
  destruct (experience_score_bounds _ _ Hy Hm) as (e & Ee & He').
  rewrite Ee.
  destruct (MatchAnalysis.analyze_strengths_and_concerns ms gs employee vacancy) as [str con].
  eexists; eexists; split; [reflexivity|]. cbn.
  pose proof (soft_skills_score_bounds employee).
  pose proof (culture_fit_score_bounds employee vacancy).
  split; [exact Hh|]. split; [assumption|]. split; [exact He'|]. split; [assumption|].
  unfold Scoring.total_score, Scoring.w_hard_skills, Scoring.w_soft_skills,
    Scoring.w_experience, Scoring.w_culture_fit.
  lra.
Qed.


(** The recommendation is "not recommended" exactly when the total score is
    below 0.5; between 0.5 and 0.7 it depends only on whether a critical gap
    exists. *)
Theorem recommendation_by_score (total : Q) (skill_gaps : list SkillGap) :
  (generate_recommendation (determine_match_type total) total skill_gaps = NotRecommended
   <-> total < 1#2) /\
  (1#2 <= total < 7#10 ->
   generate_recommendation (determine_match_type total) total skill_gaps =
   if existsb (fun g => String.eqb (gap_severity g) "critical") skill_gaps
   then RecommendAfterCritical else RecommendDevelop).
Proof.
  unfold determine_match_type, match_threshold.
  destruct (Qle_bool (9#10) total) eqn:E1;
  [apply Qle_bool_iff in E1|apply Qle_bool_false in E1];
  destruct (Qle_bool (7#10) total) eqn:E2;
  try (apply Qle_bool_iff in E2); try (apply Qle_bool_false in E2);
  destruct (Qle_bool (5#10) total) eqn:E3;
  try (apply Qle_bool_iff in E3); try (apply Qle_bool_false in E3);
  unfold generate_recommendation;
  destruct (existsb (fun g => String.eqb (gap_severity g) "critical") skill_gaps);
  (split; [split; intros H; try discriminate; try reflexivity; lra|]);
  intros H; try reflexivity; lra.
Qed.

(** [_analyze_strengths_and_concerns] never reports both rich experience
    and insufficient experience. *)
Theorem experience_messages_exclusive (skill_matches : list NamedMatch)
    (skill_gaps : list SkillGap) (employee : Heuristics.Employee) (vacancy : Heuristics.Vacancy) :
  ~ ((exists y, In (RichExperience y)
                  (fst (analyze_strengths_and_concerns skill_matches skill_gaps employee vacancy)))
     /\ In InsufficientExperience
          (snd (analyze_strengths_and_concerns skill_matches skill_gaps employee vacancy))).
Proof.
  unfold analyze_strengths_and_concerns. cbn [fst snd].
  set (mn := if num_truthy _ then _ else _).
  set (y0 := dict_get (Heuristics.emp_experience_years employee) 0).
  intros [[y Hy] Hc].
  apply in_app_or in Hy. destruct Hy as [Hy|Hy].
  { destruct (filter _ _); [contradiction|]. destruct Hy as [Hy|Hy]; [discriminate|contradiction]. }
  apply in_app_or in Hy. destruct Hy as [Hy|Hy].
  2: { destruct (Heuristics.opt_str_eqb _ _); [destruct Hy as [Hy|Hy]; [discriminate|contradiction]|contradiction]. }
  destruct (num_truthy (Heuristics.emp_experience_years employee) && negb (Qle_bool y0 mn)) eqn:E1;
    [|contradiction].
  apply in_app_or in Hc. destruct Hc as [Hc|Hc].
  { destruct (filter _ skill_gaps); [contradiction|]. destruct Hc as [Hc|Hc]; [discriminate|contradiction]. }
  apply in_app_or in Hc. destruct Hc as [Hc|Hc].
  { destruct (filter _ skill_gaps); [contradiction|]. destruct Hc as [Hc|Hc]; [discriminate|contradiction]. }
  destruct (num_truthy (Heuristics.emp_experience_years employee) && negb (Qle_bool mn y0)) eqn:E2;
    [|contradiction].
  apply andb_prop in E1, E2. destruct E1 as [_ E1], E2 as [_ E2].
  apply negb_true_iff, Qle_bool_false in E1, E2. lra.
Qed.

(** The critical-gaps concern appears exactly when a gap has severity
    critical; it names one or two skills, each the name of a critical gap. *)
Theorem critical_concern_iff (skill_matches : list NamedMatch)
    (skill_gaps : list SkillGap) (employee : Heuristics.Employee) (vacancy : Heuristics.Vacancy) :
  let concerns := snd (analyze_strengths_and_concerns skill_matches skill_gaps employee vacancy) in
  ((exists names, In (CriticalGaps names) concerns) <->
   (exists g, In g skill_gaps /\ gap_severity g = "critical")) /\
  (forall names, In (CriticalGaps names) concerns ->
     (1 <= List.length names <= 2)%nat /\
     forall n, In n names -> exists g, In g skill_gaps /\ gap_severity g = "critical" /\
                                       gap_skill_name g = n).
Proof.
  intros concerns. unfold concerns, analyze_strengths_and_concerns. cbn [snd].
  set (cg := filter (fun g => String.eqb (gap_severity g) "critical") skill_gaps).
  assert (Hcg : forall g, In g cg <-> In g skill_gaps /\ gap_severity g = "critical").
  { intros g. unfold cg. rewrite filter_In. rewrite String.eqb_eq. reflexivity. }
  assert (Hother : forall names, ~ In (CriticalGaps names)
    ((match filter (fun g => String.eqb (gap_severity g) "high") skill_gaps with
      | [] => [] | _ => [SignificantGaps (map gap_skill_name
           (firstn 2 (filter (fun g => String.eqb (gap_severity g) "high") skill_gaps)))] end) ++
     (if num_truthy (Heuristics.emp_experience_years employee) &&
         negb (Qle_bool (if num_truthy (Heuristics.vac_min_experience_years vacancy)
                          then dict_get (Heuristics.vac_min_experience_years vacancy) 0 else 0)
                        (dict_get (Heuristics.emp_experience_years employee) 0))
      then [InsufficientExperience] else []))%list).
  { intros names H. apply in_app_or in H. destruct H as [H|H].
    - destruct (filter (fun g => String.eqb (gap_severity g) "high") skill_gaps); [contradiction|]. destruct H as [H|H]; [discriminate|contradiction].
    - destruct (_ && _); [destruct H as [H|H]; [discriminate|contradiction]|contradiction]. }
  clearbody cg. split.
  - split.
    + intros [names H]. apply in_app_or in H. destruct H as [H|H]; [|exfalso; exact (Hother _ H)].
      destruct cg as [|g cg'] eqn:Ecg; [contradiction|].
      exists g. apply Hcg. left. reflexivity.
    + intros [g Hg]. apply Hcg in Hg.
      destruct cg as [|g' cg'] eqn:Ecg; [contradiction|].
      eexists. apply in_or_app. left. left. reflexivity.
  - intros names H. apply in_app_or in H. destruct H as [H|H]; [|exfalso; exact (Hother _ H)].
    destruct cg as [|g cg'] eqn:Ecg; [contradiction|].
    destruct H as [H|H]; [|contradiction]. injection H as <-.
    split.
    + destruct cg' as [|g2 cg'']; cbn; lia.
    + intros n Hn.
      change (In n (map gap_skill_name
                      (g :: match cg' with [] => [] | a :: _ => [a] end))) in Hn.
      apply in_map_iff in Hn. destruct Hn as (g0 & <- & Hg0).
      assert (Hg1 : In g0 (g :: cg')).
      { destruct Hg0 as [<-|Hg0]; [left; reflexivity|]. right.
        destruct cg'; [contradiction|]. destruct Hg0 as [<-|[]]; left; reflexivity. }
      exists g0. apply Hcg in Hg1. destruct Hg1. repeat split; assumption.
Qed.








Lemma filter_map_keep {A} (p : A -> bool) (f : A -> A) (l : list A) :
  (forall x, p (f x) = p x) -> filter p (map f l) = map f (filter p l).
Proof.
  intros H. induction l as [|x l IH]; cbn; [reflexivity|].
  rewrite H. destruct (p x); cbn; rewrite IH; reflexivity.
Qed.

Lemma map_id_on {A} (f : A -> A) (l : list A) :
  (forall x, In x l -> f x = x) -> map f l = l.
Proof.
  intros H. induction l as [|x l IH]; cbn; [reflexivity|].
  rewrite H by (left; reflexivity). rewrite IH; [reflexivity|].
  intros y Hy. apply H. right. exact Hy.
Qed.

Lemma filter_one_in {A} (p : A -> bool) (l : list A) (x : A) :
  filter p l = [x] -> In x l /\ p x = true.
Proof.
  intros H. assert (Hx : In x (filter p l)) by (rewrite H; left; reflexivity).
  apply filter_In in Hx. exact Hx.
Qed.

(** When at most one [Match] row exists for the pair, [_save_match_result]
    leaves exactly one row for it, carrying the new scores, gaps and
    explanation, and leaves the other rows unchanged. *)
Theorem save_match_result_upsert (now : Z) (mr : MatchOutcome) (st : list MatchRow) :
  (List.length (filter (same_pair (mo_employee_id mr) (mo_vacancy_id mr)) st) <= 1)%nat ->
  (exists updated_at,
     filter (same_pair (mo_employee_id mr) (mo_vacancy_id mr)) (save_match_result now mr st) =
     [mkMatchRow (mo_employee_id mr) (mo_vacancy_id mr) (mo_total_score mr)
        (mo_hard_skills_score mr) (mo_soft_skills_score mr) (mo_skill_gaps mr)
        (mo_explanation mr) updated_at]) /\
  filter (fun r => negb (same_pair (mo_employee_id mr) (mo_vacancy_id mr) r))
    (save_match_result now mr st) =
  filter (fun r => negb (same_pair (mo_employee_id mr) (mo_vacancy_id mr) r)) st.
Proof.
  intros Hlen. unfold save_match_result.
  set (key := same_pair (mo_employee_id mr) (mo_vacancy_id mr)) in *.
  destruct (filter key st) as [|r0 [|r1 rest]] eqn:Ef; cbn [SkillStore.scalar_one_or_none].
  - split.
    + exists None. rewrite filter_app, Ef. cbn.
      unfold key, same_pair. cbn. rewrite !Z.eqb_refl. reflexivity.
    + rewrite filter_app. cbn. unfold key at 2, same_pair. cbn. rewrite !Z.eqb_refl.
      cbn. apply app_nil_r.
  - set (upd := fun r : MatchRow => if key r then _ else r).
    assert (Hk : forall r, key (upd r) = key r).
    { intros r. unfold upd. destruct (key r) eqn:E; [|exact E].
      unfold key, same_pair in *. cbn. exact E. }
    split.
    + exists (Some now). rewrite filter_map_keep by exact Hk. rewrite Ef. cbn.
      unfold upd. destruct (filter_one_in _ _ _ Ef) as [_ Hr0]. rewrite Hr0.
      unfold key, same_pair in Hr0. apply andb_prop in Hr0. destruct Hr0 as [H1 H2].
      apply Z.eqb_eq in H1, H2. rewrite H1, H2. reflexivity.
    + rewrite filter_map_keep by (intros r; rewrite Hk; reflexivity).
      apply map_id_on. intros r Hr. apply filter_In in Hr. destruct Hr as [_ Hr].
      unfold upd. apply negb_true_iff in Hr. rewrite Hr. reflexivity.
  - cbn in Hlen. lia.
Qed.

(** When two or more rows exist for the pair, [_save_match_result] changes
    nothing: [scalar_one_or_none] raises and the session is rolled back. *)
Theorem save_match_result_duplicates_kept (now : Z) (mr : MatchOutcome) (st : list MatchRow) :
  (2 <= List.length (filter (same_pair (mo_employee_id mr) (mo_vacancy_id mr)) st))%nat ->
  save_match_result now mr st = st.
Proof.
  intros H. unfold save_match_result.
  destruct (filter _ st) as [|r0 [|r1 rest]]; cbn in H |- *; [lia|lia|reflexivity].
Qed.

Lemma add_relationship_post (new_id from_skill_id to_skill_id : Z)
    (relationship_type : RelationshipType) (strength : Q) (st : list SkillRelationship) :
  let key := same_relation from_skill_id to_skill_id
               (relationship_type_value relationship_type) in
  (List.length (filter key st) <= 1)%nat ->
  let '(ok, st') := add_skill_relationship new_id from_skill_id to_skill_id
                      relationship_type strength st in
  ok = true /\ map rel_strength (filter key st') = [strength] /\
  filter (fun r => negb (key r)) st' = filter (fun r => negb (key r)) st.
Proof.
  intros key Hlen. unfold add_skill_relationship. fold key.
  destruct (filter key st) as [|r0 [|r1 rest]] eqn:Ef; cbn [SkillStore.scalar_one_or_none].
  - repeat split.
    + rewrite filter_app, Ef. cbn. unfold key, same_relation. cbn.
      rewrite !Z.eqb_refl, String.eqb_refl. reflexivity.
    + rewrite filter_app. cbn. unfold key at 2, same_relation. cbn.
      rewrite !Z.eqb_refl, String.eqb_refl. cbn. apply app_nil_r.
  - set (upd := fun r : SkillRelationship => if key r then _ else r).
    assert (Hk : forall r, key (upd r) = key r).
    { intros r. unfold upd. destruct (key r) eqn:E; [|exact E].
      unfold key, same_relation in *. cbn. exact E. }
    repeat split.
    + rewrite filter_map_keep by exact Hk. rewrite Ef. cbn.
      unfold upd. destruct (filter_one_in _ _ _ Ef) as [_ Hr0]. rewrite Hr0. reflexivity.
    + rewrite filter_map_keep by (intros r; rewrite Hk; reflexivity).
      apply map_id_on. intros r Hr. apply filter_In in Hr. destruct Hr as [_ Hr].
      unfold upd. apply negb_true_iff in Hr. rewrite Hr. reflexivity.
  - cbn in Hlen. lia.
Qed.

(** [add_skill_relationship] on the relations stored for the triple
    (from, to, type); nothing in the schema makes the triple unique.
    With at most one such relation the call succeeds, leaves one relation
    for the triple, with the given strength, keeps the other relations,
    and a second identical call changes nothing. With two or more,
    [scalar_one_or_none] raises and the call returns [False] with the
    store unchanged. *)
Theorem add_skill_relationship_upsert (id1 id2 from_skill_id to_skill_id : Z)
    (relationship_type : RelationshipType) (strength : Q) (st : list SkillRelationship) :
  let key := same_relation from_skill_id to_skill_id
               (relationship_type_value relationship_type) in
  ((List.length (filter key st) <= 1)%nat ->
   let '(ok, st1) := add_skill_relationship id1 from_skill_id to_skill_id
                       relationship_type strength st in
   ok = true /\ map rel_strength (filter key st1) = [strength] /\
   filter (fun r => negb (key r)) st1 = filter (fun r => negb (key r)) st /\
   add_skill_relationship id2 from_skill_id to_skill_id relationship_type strength st1
   = (true, st1)) /\
  ((2 <= List.length (filter key st))%nat ->
   add_skill_relationship id1 from_skill_id to_skill_id relationship_type strength st
   = (false, st)).
Proof.
  intros key. split.
  - intros Hlen.
    pose proof (add_relationship_post id1 from_skill_id to_skill_id relationship_type
                  strength st Hlen) as Hpost.
    fold key in Hpost.
    destruct (add_skill_relationship id1 _ _ _ _ st) as [ok st1] eqn:E1.
    destruct Hpost as (Hok & Hs & Hother).
    split; [exact Hok|]. split; [exact Hs|]. split; [exact Hother|].
    destruct (filter key st1) as [|x [|y rest]] eqn:Ef; cbn in Hs; try discriminate.
    injection Hs as Hx. unfold add_skill_relationship. fold key. rewrite Ef.
    cbn [SkillStore.scalar_one_or_none]. f_equal.
    apply map_id_on. intros r Hr. destruct (key r) eqn:Ek; [|reflexivity].
    assert (Hin : In r (filter key st1)) by (apply filter_In; split; assumption).
    rewrite Ef in Hin. destruct Hin as [<-|[]].
    destruct x; cbn in Hx |- *. subst. reflexivity.
  - intros H2. unfold add_skill_relationship. fold key.
    destruct (filter key st) as [|r0 [|r1 rest]]; cbn in H2 |- *; [lia|lia|reflexivity].
Qed.

Lemma insert_desc_In x l y : In y (insert_desc x l) <-> x = y \/ In y l.
Proof.
  induction l as [|z l IH]; cbn; [tauto|].
  destruct (Qle_bool (snd z) (snd x)); cbn; [tauto|]. rewrite IH. tauto.
Qed.

Lemma sort_desc_In l y : In y (sort_desc l) <-> In y l.
Proof.
  induction l as [|x l IH]; cbn; [tauto|]. rewrite insert_desc_In, IH. tauto.
Qed.

Lemma collect_candidates_In f min_score include_stretch employees e t :
  In (e, t) (collect_candidates f min_score include_stretch employees) ->
  In e employees /\ f e = Some t /\ min_score <= t /\
  (include_stretch = false -> determine_match_type t <> STRETCH).
Proof.
  induction employees as [|e0 rest IH]; cbn; [contradiction|].
  intros H.
  assert (Htail : In (e, t) (collect_candidates f min_score include_stretch rest) ->
     In e (e0 :: rest) /\ f e = Some t /\ min_score <= t /\
     (include_stretch = false -> determine_match_type t <> STRETCH)).
  { intros Ht. destruct (IH Ht) as (H1 & H2 & H3 & H4). repeat split; auto. right. exact H1. }
  destruct (f e0) as [t0|] eqn:Ef; [|exact (Htail H)].
  destruct (Qle_bool min_score t0) eqn:Em; [|exact (Htail H)].
  destruct (negb include_stretch && match_type_eqb (determine_match_type t0) STRETCH) eqn:Es;
    [exact (Htail H)|].
  destruct H as [H|H]; [|exact (Htail H)].
  injection H as <- <-. split; [left; reflexivity|]. split; [exact Ef|].
  split; [apply Qle_bool_iff; exact Em|].
  intros Hi Hst. rewrite Hi, Hst in Es. discriminate.
Qed.

Lemma py_prefix_length {A} (l : list A) (n : Z) :
  (0 <= n)%Z -> (List.length (py_prefix l n) <= Z.to_nat n)%nat.
Proof.
  intros Hn. unfold py_prefix. apply Z.leb_le in Hn. rewrite Hn.
  rewrite length_firstn. lia.
Qed.

Lemma py_prefix_In {A} (l : list A) (n : Z) (x : A) : In x (py_prefix l n) -> In x l.
Proof.
  destruct (py_prefix_firstn l n) as [k ->]. apply In_firstn_incl.
Qed.

Lemma assign_ranks_In i l c :
  In c (assign_ranks i l) ->
  In (cr_employee_id c, cr_total_score c) l /\ cr_match_type c = determine_match_type (cr_total_score c).
Proof.
  revert i. induction l as [|[e t] l IH]; intros i; cbn; [contradiction|].
  intros [<-|H]; [cbn; split; [left|]; reflexivity|].
  destruct (IH _ H) as [H1 H2]. split; [right|]; assumption.
Qed.

(** [find_candidates_for_vacancy]: ranks are 1, 2, ...; a non-negative
    [limit] bounds the length; every candidate is an input employee with its
    matched score, at least [min_score], with the match type of that score,
    and not a stretch when stretch candidates are excluded. *)
Theorem find_candidates_filtered (match_employee_to_vacancy : Z -> option Q)
    (employees : list Z) (limit : Z) (min_score : Q) (include_stretch : bool) :
  let result := find_candidates_for_vacancy match_employee_to_vacancy employees limit
                  min_score include_stretch in
  map cr_rank result = seq 1 (List.length result) /\
  ((0 <= limit)%Z -> (List.length result <= Z.to_nat limit)%nat) /\
  forall c, In c result ->
    In (cr_employee_id c) employees /\
    match_employee_to_vacancy (cr_employee_id c) = Some (cr_total_score c) /\
    min_score <= cr_total_score c /\
    cr_match_type c = determine_match_type (cr_total_score c) /\
    (include_stretch = false -> cr_match_type c <> STRETCH).
Proof.
  intros result. unfold result, find_candidates_for_vacancy. split; [|split].
  - rewrite assign_ranks_ranks, assign_ranks_length. reflexivity.
  - intros Hl. rewrite assign_ranks_length. apply py_prefix_length. exact Hl.
  - intros c Hc. apply assign_ranks_In in Hc. destruct Hc as [Hc Ht].
    apply py_prefix_In, sort_desc_In, collect_candidates_In in Hc.
    destruct Hc as (H1 & H2 & H3 & H4). rewrite Ht. repeat split; auto.
Qed.

(** [find_roles_for_employee] returns roles sorted by descending score, at
    most [limit] of them, each an input vacancy with its matched score, at
    least [min_score], not a stretch when stretch roles are excluded. *)
Theorem find_roles_sorted_filtered (match_employee_to_vacancy : Z -> option Q)
    (vacancies : list Z) (limit : Z) (min_score : Q) (include_stretch : bool) :
  let result := MatchAnalysis.find_roles_for_employee match_employee_to_vacancy vacancies
                  limit min_score include_stretch in
  Sorted.Sorted score_desc result /\
  ((0 <= limit)%Z -> (List.length result <= Z.to_nat limit)%nat) /\
  forall v t, In (v, t) result ->
    In v vacancies /\ match_employee_to_vacancy v = Some t /\ min_score <= t /\
    (include_stretch = false -> determine_match_type t <> STRETCH).
Proof.
  intros result. unfold result, MatchAnalysis.find_roles_for_employee. split; [|split].
  - destruct (py_prefix_firstn (sort_desc (collect_candidates match_employee_to_vacancy
                min_score include_stretch vacancies)) limit) as [k ->].
    apply Sorted_firstn, sort_desc_sorted.
  - apply py_prefix_length.
  - intros v t H. apply py_prefix_In, sort_desc_In, collect_candidates_In in H. exact H.
Qed.

(** [_gap_to_priority] is the [severity_order] of [analyze_skill_gaps]
    plus one, for every string. *)
Theorem gap_to_priority_matches_order (gap_severity : string) :
  gap_to_priority gap_severity = (Z.of_nat (severity_order gap_severity) + 1)%Z.
Proof.
  unfold gap_to_priority, severity_order.
  repeat match goal with |- context [String.eqb ?a ?b] => destruct (String.eqb a b) end;
  reflexivity.
Qed.

(** [_estimate_learning_time] is at least two weeks; it is two exactly when
    the target level is not above the current one (a missing level counts
    as novice), and otherwise the difference of the level weeks. *)
Theorem estimate_learning_time_spec (current_level : option SkillLevel) (target_level : SkillLevel) :
  let current := match current_level with Some l => l | None => NOVICE end in
  (2 <= estimate_learning_time current_level target_level)%Z /\
  (estimate_learning_time current_level target_level = 2%Z <->
   (SkillGraphService.level_order target_level <= SkillGraphService.level_order current)%Z) /\
  ((SkillGraphService.level_order current < SkillGraphService.level_order target_level)%Z ->
   estimate_learning_time current_level target_level =
   (level_weeks target_level - level_weeks current)%Z).
Proof.
  intros current. unfold current.
  destruct current_level as [c|], target_level; try destruct c; cbn;
  repeat split; intros; try lia; try discriminate; try reflexivity.
Qed.

Lemma insert_by_key_In x l y : In y (insert_by_key x l) <-> x = y \/ In y l.
Proof.
  induction l as [|z l IH]; cbn; [tauto|].
  match goal with |- context [if ?c then _ else _] => destruct c end;
  cbn; [tauto|]. rewrite IH. tauto.
Qed.

Lemma sort_by_key_In l y : In y (sort_by_key l) <-> In y l.
Proof.
  induction l as [|x l IH]; cbn; [tauto|]. rewrite insert_by_key_In, IH. tauto.
Qed.

Lemma insert_by_key_cons x z l :
  insert_by_key x (z :: l) =
  if Nat.leb (severity_order (gap_severity x)) (severity_order (gap_severity z))
  then x :: z :: l else z :: insert_by_key x l.
Proof. reflexivity. Qed.

Lemma insert_by_key_sorted x l :
  Sorted.Sorted severity_le l -> Sorted.Sorted severity_le (insert_by_key x l).
Proof.
  induction l as [|z l IH]; intros Hs.
  - constructor; constructor.
  - rewrite insert_by_key_cons.
    destruct (Nat.leb (severity_order (gap_severity x)) (severity_order (gap_severity z)))
      eqn:E.
    + constructor; [exact Hs|]. constructor. apply Nat.leb_le in E. unfold severity_le. lia.
    + apply Nat.leb_gt in E. apply Sorted.Sorted_inv in Hs. destruct Hs as [Hs Hh].
      constructor; [apply IH; exact Hs|].
      destruct l as [|w l'].
      * constructor. unfold severity_le. lia.
      * rewrite insert_by_key_cons.
        match goal with |- context [if ?c then _ else _] => destruct c end; constructor.
        -- unfold severity_le. lia.
        -- inversion Hh; assumption.
Qed.

Lemma sort_by_key_sorted l : Sorted.Sorted severity_le (sort_by_key l).
Proof.
  induction l as [|x l IH]; cbn; [constructor|]. apply insert_by_key_sorted. exact IH.
Qed.

Lemma insert_by_key_same_class k x l :
  filter (severity_class k) (insert_by_key x l) = filter (severity_class k) (x :: l).
Proof.
  induction l as [|y l IH]; [reflexivity|].
  rewrite insert_by_key_cons.
  destruct (Nat.leb (severity_order (gap_severity x)) (severity_order (gap_severity y)))
    eqn:E; [reflexivity|].
  cbn [filter]. rewrite IH. cbn [filter]. unfold severity_class.
  destruct (Nat.eqb (severity_order (gap_severity x)) k) eqn:Ex;
    destruct (Nat.eqb (severity_order (gap_severity y)) k) eqn:Ey; try reflexivity.
  apply Nat.leb_gt in E. apply Nat.eqb_eq in Ex, Ey. lia.
Qed.

Lemma sort_by_key_same_class k l :
  filter (severity_class k) (sort_by_key l) = filter (severity_class k) l.
Proof.
  induction l as [|x l IH]; [reflexivity|]. cbn [sort_by_key].
  rewrite insert_by_key_same_class. cbn [filter]. rewrite IH. reflexivity.
Qed.

Lemma sg_gap_severity_values cur req r :
  let s := SkillGraphService.calculate_gap_severity cur req r in
  s = "critical" \/ s = "high" \/ s = "medium" \/ s = "low" \/ s = "none".
Proof.
  unfold SkillGraphService.calculate_gap_severity.
  destruct cur as [c|].
  - destruct (_ <=? 0)%Z; [tauto|]. destruct (_ =? 1)%Z; [tauto|].
    destruct (_ =? 2)%Z; [tauto|]. destruct (negb _); tauto.
  - destruct (flag_truthy _); [tauto|]. destruct req; tauto.
Qed.

Lemma skill_gaps_loop_In skill_name_of es reqs gs :
  skill_gaps_loop skill_name_of es reqs = Some gs ->
  forall g, In g gs ->
    In (gap_skill_id g) (map fst reqs) /\
    (gap_severity g = "critical" \/ gap_severity g = "high" \/
     gap_severity g = "medium" \/ gap_severity g = "low").
Proof.
  revert gs. induction reqs as [|[sid r] reqs IH]; intros gs H g Hg; cbn in H.
  - injection H as <-. contradiction.
  - assert (Htl : forall gs', skill_gaps_loop skill_name_of es reqs = Some gs' -> In g gs' ->
              In (gap_skill_id g) (map fst ((sid, r) :: reqs)) /\
              (gap_severity g = "critical" \/ gap_severity g = "high" \/
               gap_severity g = "medium" \/ gap_severity g = "low")).
    { intros gs' H' Hg'. destruct (IH _ H' g Hg') as [H1 H2]. split; [right|]; assumption. }
    destruct (skill_name_of sid) as [name|]; [|exact (Htl _ H Hg)].
    destruct (MatchAnalysis.skill_level_of_string _) as [req|]; [|discriminate].
    match type of H with match ?c with _ => _ end = _ => destruct c as [cur|] end;
      [|discriminate].
    destruct (skill_gaps_loop skill_name_of es reqs) as [gs'|]; [|discriminate].
    destruct (String.eqb (SkillGraphService.calculate_gap_severity cur req r) "none") eqn:En.
    + injection H as <-. exact (Htl _ eq_refl Hg).
    + injection H as <-. destruct Hg as [<-|Hg]; [|exact (Htl _ eq_refl Hg)].
      cbn. split; [left; reflexivity|].
      destruct (sg_gap_severity_values cur req r) as [E|[E|[E|[E|E]]]];
        rewrite E in *; try tauto. discriminate.
Qed.

(** [analyze_skill_gaps] returns gaps sorted by severity (critical first),
    each for a required skill and of severity critical, high, medium or
    low (never none). *)
Theorem analyze_skill_gaps_ordered (skill_name_of : Z -> option string)
    (employee_skills : list (Z * ProfileSkill)) (required_skills : list (Z * Requirement)) :
  let gaps := analyze_skill_gaps skill_name_of employee_skills required_skills in
  Sorted.Sorted severity_le gaps /\
  forall g, In g gaps ->
    In (gap_skill_id g) (map fst required_skills) /\
    (gap_severity g = "critical" \/ gap_severity g = "high" \/
     gap_severity g = "medium" \/ gap_severity g = "low").
Proof.
  intros gaps. unfold gaps, analyze_skill_gaps.
  destruct (skill_gaps_loop skill_name_of employee_skills required_skills) as [gs|] eqn:E.
  - split; [apply sort_by_key_sorted|]. intros g Hg. rewrite sort_by_key_In in Hg.
    exact (skill_gaps_loop_In _ _ _ _ E g Hg).
  - split; [constructor|]. intros g [].
Qed.

(** [analyze_skill_gaps] sorts stably: the gaps of each severity keep the
    order of [required_skills], the order in which the loop records them;
    when the loop raises, the result is empty. *)
Theorem analyze_skill_gaps_stable skill_name_of employee_skills required_skills k :
  match skill_gaps_loop skill_name_of employee_skills required_skills with
  | Some gaps =>
      filter (severity_class k)
        (analyze_skill_gaps skill_name_of employee_skills required_skills) =
      filter (severity_class k) gaps
  | None => analyze_skill_gaps skill_name_of employee_skills required_skills = []
  end.
Proof.
  unfold analyze_skill_gaps.
  destruct (skill_gaps_loop skill_name_of employee_skills required_skills) as [gaps|];
    [|reflexivity].
  apply sort_by_key_same_class.
Qed.

Lemma skill_gaps_loop_app_none skill_name_of es pre rest :
  skill_gaps_loop skill_name_of es rest = None ->
  skill_gaps_loop skill_name_of es (pre ++ rest) = None.
Proof.
  intros H. induction pre as [|[sid r] pre IH]; cbn; [exact H|].
  rewrite IH. destruct (skill_name_of sid); [|reflexivity].
  destruct (MatchAnalysis.skill_level_of_string _); [|reflexivity].
  match goal with |- match ?c with _ => _ end = _ => destruct c end; reflexivity.
Qed.

(** A required level that is not a [SkillLevel], on a skill that exists,
    makes [analyze_skill_gaps] return no gaps at all. *)
Theorem analyze_skill_gaps_invalid_level (skill_name_of : Z -> option string)
    (employee_skills : list (Z * ProfileSkill)) (pre post : list (Z * Requirement))
    (skill_id : Z) (requirements : Requirement) (name : string) :
  skill_name_of skill_id = Some name ->
  skill_level_of_string (dict_get (req_min_level requirements) "novice") = None ->
  analyze_skill_gaps skill_name_of employee_skills (pre ++ (skill_id, requirements) :: post) = [].
Proof.
  intros Hn Hl. unfold analyze_skill_gaps.
  rewrite skill_gaps_loop_app_none; [reflexivity|].
  cbn. rewrite Hn, Hl. reflexivity.
Qed.

Lemma analyze_loop_app_none parse_uuid skill_name_of es pre rest :
  analyze_loop parse_uuid skill_name_of es rest = None ->
  analyze_loop parse_uuid skill_name_of es (pre ++ rest) = None.
Proof.
  intros H. induction pre as [|[sid r] pre IH]; cbn; [exact H|].
  rewrite IH. destruct (parse_uuid sid); [|reflexivity].
  destruct (skill_name_of _); [|reflexivity].
  match goal with |- match ?c with _ => _ end = _ => destruct c as [[g|]|] end; reflexivity.
Qed.

(** A required level that is not a [SkillLevel], on an existing skill the
    employee lacks, empties the whole [_analyze_skills_match] result, so the
    hard score is 0. *)
Theorem analyze_skills_match_invalid_level (parse_uuid : string -> option Z)
    (skill_name_of : Z -> option string) (employee : Heuristics.Employee)
    (vacancy : Heuristics.Vacancy) (pre post : list (string * Requirement))
    (skill_id_str : string) (skill_id : Z) (requirements : Requirement) (name : string) :
  required_skills_of vacancy = (pre ++ (skill_id_str, requirements) :: post)%list ->
  parse_uuid skill_id_str = Some skill_id ->
  skill_name_of skill_id = Some name ->
  Heuristics.assoc_get skill_id_str (Heuristics.emp_skills employee) = None ->
  skill_level_of_string (dict_get (req_min_level requirements) "novice") = None ->
  analyze_skills_match parse_uuid skill_name_of employee vacancy = ([], []) /\
  calculate_hard_skills_score
    (map snd (fst (analyze_skills_match parse_uuid skill_name_of employee vacancy))) = 0.
Proof.
  intros Hreq Hp Hn Ha Hl.
  assert (E : analyze_skills_match parse_uuid skill_name_of employee vacancy = ([], [])).
  { unfold analyze_skills_match. rewrite Hreq, analyze_loop_app_none; [reflexivity|].
    cbn. rewrite Hp, Hn, Ha. cbn.
    unfold MatchingService.calculate_gap_severity. cbn.
    rewrite Hl.
    destruct (flag_truthy (req_is_critical requirements)); [reflexivity|].
    destruct (_ || _); reflexivity. }
  split; [exact E|]. rewrite E. reflexivity.
Qed.

(** [create_skill] keeps skill names unique up to case: if its lookup
    finds at most one row for every name, it still does after the call,
    provided the database lowers the new name as Python does. *)
Theorem create_skill_keeps_names_unique sql_lower py_lower get_embedding new_id name
    category description parent_skill_id st :
  names_unique sql_lower py_lower st ->
  sql_lower name = py_lower name ->
  names_unique sql_lower py_lower
    (snd (SkillStore.create_skill sql_lower py_lower get_embedding new_id name category
            description parent_skill_id st)).
Proof.
  intros Hu Hs. unfold SkillStore.create_skill.
  fold (SkillStore.same_name sql_lower py_lower name st).
  destruct (SkillStore.same_name sql_lower py_lower name st) as [|x [|y rest]] eqn:Es;
    cbn; try exact Hu.
  destruct (get_embedding _) as [emb|]; [|exact Hu].
  match goal with |- context [match ?p with inl _ => _ | inr _ => _ end] => destruct p as [pp|] end;
    [|exact Hu].
  match goal with |- context [let '(_, _) := ?c in _] => destruct c as [level path] end.
  cbn. intros n. rewrite same_name_app.
  unfold SkillStore.same_name at 2. cbn.
  destruct (String.eqb (sql_lower name) (py_lower n)) eqn:El; cbn.
  - apply String.eqb_eq in El.
    rewrite (same_name_lower sql_lower py_lower n name st (eq_trans (eq_sym El) Hs)), Es.
    cbn. lia.
  - rewrite app_nil_r. apply Hu.
Qed.

(** [create_skill] with a name its lookup does not find and a parent id
    that matches no row still records that id, at level 1 with the skill
    name as its path. *)
Theorem create_skill_unknown_parent sql_lower py_lower get_embedding new_id name category
    description parent_skill_id st embedding :
  SkillStore.same_name sql_lower py_lower name st = [] ->
  get_embedding (name ++ " " ++ dict_get description "" ++ " " ++ category) = Some embedding ->
  filter (fun n => Z.eqb (SkillStore.sk_id n) parent_skill_id) st = [] ->
  SkillStore.create_skill sql_lower py_lower get_embedding new_id name category description
    (Some parent_skill_id) st
  = (Some new_id,
     (st ++ [SkillStore.mkSkillNode new_id name category description (Some parent_skill_id)
               name 1 embedding true])%list).
Proof.
  intros Hs He Hp. unfold SkillStore.create_skill.
  fold (SkillStore.same_name sql_lower py_lower name st). rewrite Hs.
  cbn [SkillStore.scalar_one_or_none].
  rewrite He, Hp. reflexivity.
Qed.


(** ** Witnesses *)

Lemma match_total_range_witness :
  exists result st',
    MatchPipeline.match_employee_to_vacancy sample_parse_uuid sample_skill_name
      (fun _ => Some sample_employee) (fun _ => Some sample_vacancy)
      (fun _ _ _ _ _ _ => "") 1 2 true 0 [] = (Some result, st') /\
    0 <= MatchPipeline.res_hard_skills_score result <= 1 /\
    7#10 <= MatchPipeline.res_soft_skills_score result <= 1 /\
    2#10 <= MatchPipeline.res_experience_score result <= 1 /\
    75#100 <= MatchPipeline.res_culture_fit_score result <= 1 /\
    121#400 <= MatchPipeline.res_total_score result <= 1.
Proof.
  refine (match_total_range sample_parse_uuid sample_skill_name
            (fun _ => Some sample_employee) (fun _ => Some sample_vacancy)
            (fun _ _ _ _ _ _ => "") 1 2 true 0 [] sample_employee sample_vacancy
            eq_refl eq_refl _ _ _).
  - intros y H. cbn in H. inversion H. lra.
  - intros m H. cbn in H. inversion H. lra.
  - intros sid r w Hin Hw. cbn in Hin.
    destruct Hin as [H|[H|[]]]; inversion H; subst; cbn in Hw; inversion Hw; lra.
Defined.

Lemma save_match_result_upsert_witness :
  (exists updated_at,
     filter (same_pair 1 2) (save_match_result 5 sample_outcome sample_rows) =
     [mkMatchRow 1 2 (8#10) (7#10) (9#10) [] "new" updated_at]) /\
  filter (fun r => negb (same_pair 1 2 r)) (save_match_result 5 sample_outcome sample_rows) =
  filter (fun r => negb (same_pair 1 2 r)) sample_rows.
Proof.
  exact (save_match_result_upsert 5 sample_outcome sample_rows ltac:(vm_compute; lia)).
Defined.

Lemma save_match_result_duplicates_kept_witness :
  save_match_result 5 sample_outcome sample_duplicate_rows = sample_duplicate_rows.
Proof.
  exact (save_match_result_duplicates_kept 5 sample_outcome sample_duplicate_rows
           ltac:(vm_compute; lia)).
Defined.

Lemma add_skill_relationship_upsert_witness :
  let '(ok, st1) := add_skill_relationship 20 1 2 PREREQUISITE (3#4) sample_relations in
  ok = true /\ map rel_strength (filter (same_relation 1 2 "prerequisite") st1) = [3#4] /\
  filter (fun r => negb (same_relation 1 2 "prerequisite" r)) st1 =
  filter (fun r => negb (same_relation 1 2 "prerequisite" r)) sample_relations /\
  add_skill_relationship 21 1 2 PREREQUISITE (3#4) st1 = (true, st1).
Proof.
  exact (proj1 (add_skill_relationship_upsert 20 21 1 2 PREREQUISITE (3#4) sample_relations)
           ltac:(vm_compute; lia)).
Defined.

Lemma analyze_skill_gaps_invalid_level_witness :
  analyze_skill_gaps sample_skill_name []
    ([(1%Z, mkRequirement (Some "advanced") None None)] ++
     [(2%Z, mkRequirement (Some "senior") None None)]) = [].
Proof.
  exact (analyze_skill_gaps_invalid_level sample_skill_name []
           [(1%Z, mkRequirement (Some "advanced") None None)] []
           2 (mkRequirement (Some "senior") None None) "Python" eq_refl eq_refl).
Defined.

Lemma analyze_skills_match_invalid_level_witness :
  analyze_skills_match sample_parse_uuid sample_skill_name sample_employee
    sample_vacancy_off_scale = ([], []) /\
  calculate_hard_skills_score
    (map snd (fst (analyze_skills_match sample_parse_uuid sample_skill_name
                     sample_employee sample_vacancy_off_scale))) = 0.
Proof.
  exact (analyze_skills_match_invalid_level sample_parse_uuid sample_skill_name
           sample_employee sample_vacancy_off_scale
           [("s1", mkRequirement (Some "expert") (Some 1) (Some true))] []
           "s2" 2 (mkRequirement (Some "senior") None None) "Python"
           eq_refl eq_refl eq_refl eq_refl eq_refl).
Defined.

Lemma create_skill_keeps_names_unique_witness :
  names_unique sample_lower sample_lower
    (snd (SkillStore.create_skill sample_lower sample_lower (fun _ => Some []) 7
            "Управление" "soft_skills" None None sample_store)).
Proof.
  apply (create_skill_keeps_names_unique sample_lower sample_lower (fun _ => Some []) 7
           "Управление" "soft_skills" None None sample_store); [|reflexivity].
  intros n. unfold SkillStore.same_name. cbn.
  repeat match goal with |- context [if ?c then _ else _] => destruct c end; cbn; lia.
Defined.

Lemma create_skill_unknown_parent_witness :
  SkillStore.create_skill sample_lower sample_lower (fun _ => Some [1]) 7 "Python"
    "technical" None (Some 99%Z) sample_store =
  (Some 7%Z,
   (sample_store ++ [SkillStore.mkSkillNode 7 "Python" "technical" None (Some 99%Z)
                       "Python" 1 [1] true])%list).
Proof.
  exact (create_skill_unknown_parent sample_lower sample_lower (fun _ => Some [1]) 7
           "Python" "technical" None 99 sample_store [1] eq_refl eq_refl eq_refl).
Defined.


End ServiceProperties.
